(** * iterm2_bridge.py: the command-line bridge to the terminal's scripting API

    A shallow embedding of [src/iterm2_bridge.py] and the properties of its
    command dispatcher.

    - Python [str] values are [string]s whose characters are code points
      below 256: [chr], [ord], [str.lower] and the escaping done by
      [json.dumps] are exact on that alphabet.  Code points above 255 are
      outside the model.
    - Exceptions are instances of [Exception] carrying their message
      ([str(e)]); [exc A] is a result or a raised exception.
    - The scripting API is the state [Host] of the terminal application:
      what each call answers (a value or an exception) and, for the session,
      the text it has received.  A run of the program is a state transformer
      on [World]: the host, the log of API calls made, and what was written
      to the two output streams. *)

From Stdlib Require Import Ascii Lia.
From stdpp Require Import base strings gmap list.

Open Scope string_scope.

(** ** Python values *)

Inductive exc (A : Type) : Type :=
| Ok (a : A)
| Raise (msg : string).
Arguments Ok {A} a.
Arguments Raise {A} msg.

(** The values stored in the result dictionaries: [True]/[False] and [str]. *)
Inductive value : Type :=
| VBool (b : bool)
| VStr (s : string).

(** A result dictionary, in insertion order (the order [json.dumps] writes). *)
Definition dict : Type := list (string * value).

Definition ord (c : ascii) : nat := nat_of_ascii c.

(** [chr(i)] for [i < 256]; the codes of [control_map] are below 32. *)
Definition chr (i : nat) : string := String (ascii_of_nat i) "".

(** [str.lower] on one code point below 256: A-Z and the Latin-1 capitals
    (0xC0-0xDE without the multiplication sign 0xD7) move up by 32. *)
Definition lower_char (c : ascii) : ascii :=
  let n := ord c in
  if (((65 <=? n) && (n <=? 90))
      || ((192 <=? n) && (n <=? 222) && negb (n =? 215)))%nat
  then ascii_of_nat (n + 32)
  else c.

Fixpoint str_lower (s : string) : string :=
  match s with
  | EmptyString => EmptyString
  | String c rest => String (lower_char c) (str_lower rest)
  end.

(** [sep.join(items)] *)
Fixpoint str_join (sep : string) (items : list string) : string :=
  match items with
  | [] => ""
  | x :: rest =>
      match rest with
      | [] => x
      | _ :: _ => x +:+ sep +:+ str_join sep rest
      end
  end.

Definition newline : string := String "010"%char "".

(** ** [json.dumps] on result dictionaries

    The default encoder: [ensure_ascii=True], separators [", "] and [": "]. *)

Definition dquote : string := String "034"%char "".
Definition backslash : string := String "092"%char "".

Definition hex_digit (n : nat) : string :=
  String (ascii_of_nat (if (n <? 10)%nat then 48 + n else 87 + n)) "".

(** One character of a string literal, as [py_encode_basestring_ascii]
    writes it: everything outside the printable range 0x20-0x7E, the quote
    and the backslash are escaped. *)
Definition escape_char (c : ascii) : string :=
  let n := ord c in
  if (n =? 34)%nat then backslash +:+ dquote
  else if (n =? 92)%nat then backslash +:+ backslash
  else if (n =? 10)%nat then backslash +:+ "n"
  else if (n =? 13)%nat then backslash +:+ "r"
  else if (n =? 9)%nat then backslash +:+ "t"
  else if (n =? 12)%nat then backslash +:+ "f"
  else if (n =? 8)%nat then backslash +:+ "b"
  else if ((32 <=? n) && (n <=? 126))%nat then String c ""
  else backslash +:+ "u00" +:+ hex_digit (n / 16) +:+ hex_digit (n mod 16).

Fixpoint escape_string (s : string) : string :=
  match s with
  | EmptyString => ""
  | String c rest => escape_char c +:+ escape_string rest
  end.

Definition encode_string (s : string) : string :=
  dquote +:+ escape_string s +:+ dquote.

Definition encode_value (v : value) : string :=
  match v with
  | VBool true => "true"
  | VBool false => "false"
  | VStr s => encode_string s
  end.

Definition encode_item (kv : string * value) : string :=
  encode_string kv.1 +:+ ": " +:+ encode_value kv.2.

Definition json_dumps (d : dict) : string :=
  "{" +:+ str_join ", " (map encode_item d) +:+ "}".

(** ** The scripting API: the state of the host application *)

(** [iterm2.screen.LineContents]; [line_string] is its [string] property. *)
Record LineContents : Type := { line_string : string }.

(** [iterm2.screen.ScreenContents]: the rows of the visible buffer. *)
Record ScreenContents : Type := { screen_lines : list LineContents }.

Definition number_of_lines (contents : ScreenContents) : nat :=
  length (screen_lines contents).

(** [contents.line(i)]; an index outside the buffer raises [IndexError]. *)
Definition line (contents : ScreenContents) (i : nat) : exc LineContents :=
  match screen_lines contents !! i with
  | Some l => Ok l
  | None => Raise "list index out of range"
  end.

(** What [session_info] answers, for [ITerm2Bridge.get_tty_path]:
    [info_tty] is [None] when the object has no attribute [tty]. *)
Record SessionInfo : Type := { info_tty : option string }.

(** A session of the terminal: its true state ([session_tty], the device it
    controls; [session_busy], whether a foreground job runs; [session_input],
    the text it has received) and the answers of its API calls. *)
Record Session : Type := {
  session_tty : string;
  session_busy : bool;
  session_input : list string;
  send_text_response : exc unit;
  screen_contents_response : exc (option ScreenContents);
  session_info_response : exc (option SessionInfo)
}.

(** Reading a property gives an object, [None], or raises. *)
Record Tab : Type := { current_session : exc (option Session) }.
Record Window : Type := { current_tab : exc (option Tab) }.
Record App : Type := { current_terminal_window : exc (option Window) }.

Inductive Connection : Type := connection_handle.

Record Host : Type := {
  create_response : exc Connection;
  app_response : exc App
}.

(** The calls that cross to the host application. *)
Inductive Call : Type :=
| CallCreate
| CallGetApp
| CallSendText (text : string)
| CallGetScreenContents
| CallGetSessionInfo.

Record World : Type := {
  host : Host;
  calls : list Call;
  stdout : string;
  stderr : string
}.

Definition initial (h : Host) : World :=
  {| host := h; calls := []; stdout := ""; stderr := "" |}.

(** ** The monad of the program: state and exceptions *)

Definition M (A : Type) : Type := World → exc A * World.

#[export] Instance M_ret : MRet M := λ A a w, (Ok a, w).
#[export] Instance M_bind : MBind M := λ A B f m w,
  match m w with
  | (Ok a, w') => f a w'
  | (Raise msg, w') => (Raise msg, w')
  end.

(** [try: body except Exception as e: handler(str(e))] *)
Definition try_except {A} (body : M A) (handler : string → M A) : M A :=
  λ w, match body w with
       | (Ok a, w') => (Ok a, w')
       | (Raise msg, w') => handler msg w'
       end.

(** The outcome of an API answer or of a property read. *)
Definition attr {A} (r : exc A) : M A := λ w, (r, w).

Definition get_host : M Host := λ w, (Ok (host w), w).

Definition log_call (c : Call) : M unit := λ w,
  (Ok (), {| host := host w; calls := calls w ++ [c];
             stdout := stdout w; stderr := stderr w |}).

Definition set_host (h : Host) : M unit := λ w,
  (Ok (), {| host := h; calls := calls w;
             stdout := stdout w; stderr := stderr w |}).

(** [print(s)] *)
Definition print (s : string) : M unit := λ w,
  (Ok (), {| host := host w; calls := calls w;
             stdout := stdout w +:+ s +:+ newline; stderr := stderr w |}).

(** [print(s, file=sys.stderr)] *)
Definition print_stderr (s : string) : M unit := λ w,
  (Ok (), {| host := host w; calls := calls w;
             stdout := stdout w; stderr := stderr w +:+ s +:+ newline |}).

(** [items[i]]; an index outside the list raises [IndexError]. *)
Definition index (items : list string) (i : nat) : M string :=
  match items !! i with
  | Some x => mret x
  | None => attr (Raise "list index out of range")
  end.

(** [for x in items: state = body(x, state)] *)
Fixpoint for_each {A S} (items : list A) (body : A → S → M S) (state : S) : M S :=
  match items with
  | [] => mret state
  | x :: rest => state' ← body x state; for_each rest body state'
  end.

(** [range(n)] *)
Definition range (n : nat) : list nat := seq 0 n.

(** [if x: ...] on an object or [None], inside a function whose last
    statement is a [return]: [Some d] when the block returned [d], [None]
    when control falls through to that last statement. *)
Definition if_truthy {A} (x : option A) (block : A → M (option dict)) : M (option dict) :=
  match x with
  | Some a => block a
  | None => mret None
  end.

Definition or_else (returned : option dict) (last : dict) : M dict :=
  match returned with
  | Some d => mret d
  | None => mret last
  end.

(** *** The API calls *)

(** [await iterm2.Connection.async_create()] *)
Definition Connection_async_create : M Connection :=
  log_call CallCreate;;
  h ← get_host;
  attr (create_response h).

(** [await iterm2.async_get_app(connection)] *)
Definition async_get_app (connection : Connection) : M App :=
  log_call CallGetApp;;
  h ← get_host;
  attr (app_response h).

Definition deliver (text : string) (s : Session) : Session :=
  {| session_tty := session_tty s;
     session_busy := session_busy s;
     session_input := session_input s ++ [text];
     send_text_response := send_text_response s;
     screen_contents_response := screen_contents_response s;
     session_info_response := session_info_response s |}.

(** The host with the state of its current session replaced. *)
Definition set_current_session (s : Session) (h : Host) : Host :=
  match app_response h with
  | Ok app =>
      match current_terminal_window app with
      | Ok (Some window) =>
          match current_tab window with
          | Ok (Some tab) =>
              match current_session tab with
              | Ok (Some _) =>
                  {| create_response := create_response h;
                     app_response :=
                       Ok {| current_terminal_window :=
                         Ok (Some {| current_tab :=
                           Ok (Some {| current_session := Ok (Some s) |}) |}) |} |}
              | _ => h
              end
          | _ => h
          end
      | _ => h
      end
  | _ => h
  end.

(** [await session.async_send_text(text)]: unless the call raises, the text
    is appended to the input of the session, which is the current one. *)
Definition async_send_text (session : Session) (text : string) : M unit :=
  log_call (CallSendText text);;
  attr (send_text_response session);;
  h ← get_host;
  set_host (set_current_session (deliver text session) h).

(** [await session.async_get_screen_contents()] *)
Definition async_get_screen_contents (session : Session) : M (option ScreenContents) :=
  log_call CallGetScreenContents;;
  attr (screen_contents_response session).

(** [await session.async_get_session_info()] *)
Definition async_get_session_info (session : Session) : M (option SessionInfo) :=
  log_call CallGetSessionInfo;;
  attr (session_info_response session).

(** ** The command handlers of [main] *)

Definition control_map : gmap string nat :=
  <["c" := 3]> (<["z" := 26]> (<["d" := 4]> (<["l" := 12]> (<["]" := 29]>
    (<["escape" := 27]> (<["esc" := 27]> ∅)))))).

Definition write_text_async (text : string) : M dict :=
  returned ← (
    connection ← Connection_async_create;
    app ← async_get_app connection;
    window ← attr (current_terminal_window app);
    if_truthy window (λ window,
      tab ← attr (current_tab window);
      if_truthy tab (λ tab,
        session ← attr (current_session tab);
        if_truthy session (λ session,
          async_send_text session text;;
          mret (Some [("success", VBool true)])))));
  or_else returned [("success", VBool false); ("error", VStr "No active session found")].

Definition get_content_async : M dict :=
  returned ← (
    connection ← Connection_async_create;
    app ← async_get_app connection;
    window ← attr (current_terminal_window app);
    if_truthy window (λ window,
      tab ← attr (current_tab window);
      if_truthy tab (λ tab,
        session ← attr (current_session tab);
        if_truthy session (λ session,
          contents ← async_get_screen_contents session;
          match contents with
          | Some contents =>
              lines ← for_each (range (number_of_lines contents))
                (λ i (lines : list string),
                   line ← attr (line contents i);
                   mret (lines ++ [line_string line])%list)
                [];
              mret (Some [("success", VBool true);
                          ("content", VStr (str_join newline lines))])
          | None =>
              mret (Some [("success", VBool true); ("content", VStr "")])
          end))));
  or_else returned [("success", VBool false); ("error", VStr "No active session found")].

Definition send_control_async (char : string) : M dict :=
  returned ← (
    connection ← Connection_async_create;
    app ← async_get_app connection;
    window ← attr (current_terminal_window app);
    if_truthy window (λ window,
      tab ← attr (current_tab window);
      if_truthy tab (λ tab,
        session ← attr (current_session tab);
        if_truthy session (λ session,
          let char_lower := str_lower char in
          match control_map !! char_lower with
          | Some control_code =>
              async_send_text session (chr control_code);;
              mret (Some [("success", VBool true)])
          | None =>
              mret (Some [("success", VBool false);
                          ("error", VStr ("Unknown control character: " +:+ char))])
          end))));
  or_else returned [("success", VBool false); ("error", VStr "No active session found")].

Definition get_tty_async : M dict :=
  returned ← (
    connection ← Connection_async_create;
    app ← async_get_app connection;
    window ← attr (current_terminal_window app);
    if_truthy window (λ window,
      tab ← attr (current_tab window);
      if_truthy tab (λ tab,
        session ← attr (current_session tab);
        if_truthy session (λ session,
          mret (Some [("success", VBool true); ("tty", VStr "/dev/ttys000")])))));
  or_else returned [("success", VBool false); ("error", VStr "No active session found")].

Definition is_processing_async : M dict :=
  returned ← (
    connection ← Connection_async_create;
    app ← async_get_app connection;
    window ← attr (current_terminal_window app);
    if_truthy window (λ window,
      tab ← attr (current_tab window);
      if_truthy tab (λ tab,
        session ← attr (current_session tab);
        if_truthy session (λ session,
          mret (Some [("success", VBool true); ("processing", VBool false)])))));
  or_else returned [("success", VBool false); ("error", VStr "No active session found")].

(** ** [main] *)

(** The block under [try:] in [main]. *)
Definition main_try (argv : list string) (command : string) : M unit :=
  if String.eqb command "write_text" then
    if (length argv <? 3)%nat then
      print (json_dumps [("success", VBool false); ("error", VStr "No text provided")])
    else
      text ← index argv 2;
      result ← write_text_async text;
      print (json_dumps result)
  else if String.eqb command "get_content" then
    result ← get_content_async;
    print (json_dumps result)
  else if String.eqb command "send_control" then
    if (length argv <? 3)%nat then
      print (json_dumps [("success", VBool false);
                         ("error", VStr "No control character provided")])
    else
      char ← index argv 2;
      result ← send_control_async char;
      print (json_dumps result)
  else if String.eqb command "get_tty" then
    result ← get_tty_async;
    print (json_dumps result)
  else if String.eqb command "is_processing" then
    result ← is_processing_async;
    print (json_dumps result)
  else
    print (json_dumps [("success", VBool false);
                       ("error", VStr ("Unknown command: " +:+ command))]).

(** [main()]; [argv] is [sys.argv], the program name first. *)
Definition main (argv : list string) : M unit :=
  if (length argv <? 2)%nat then
    print (json_dumps [("success", VBool false); ("error", VStr "No command specified")])
  else
    command ← index argv 1;
    try_except (main_try argv command)
      (λ e, print (json_dumps [("success", VBool false); ("error", VStr e)])).

(** One invocation of the program against the host [h]. *)
Definition run (argv : list string) (h : Host) : exc unit * World :=
  main argv (initial h).

(** ** Resolution, as a state of the host

    The walk every handler makes (connect, application, current window,
    current tab, current session) read off the host: the session, [None]
    when a window, tab or session is absent, or the exception met first. *)
Definition resolve (h : Host) : exc (option Session) :=
  match create_response h with
  | Raise msg => Raise msg
  | Ok _ =>
      match app_response h with
      | Raise msg => Raise msg
      | Ok app =>
          match current_terminal_window app with
          | Raise msg => Raise msg
          | Ok None => Ok None
          | Ok (Some window) =>
              match current_tab window with
              | Raise msg => Raise msg
              | Ok None => Ok None
              | Ok (Some tab) => current_session tab
              end
          end
      end
  end.

(** Resolution fails without a fault: the connection and the application are
    there and the window, the tab or the session is [None]. *)
Inductive absent (h : Host) : Prop :=
| absent_window c app :
    create_response h = Ok c → app_response h = Ok app →
    current_terminal_window app = Ok None → absent h
| absent_tab c app window :
    create_response h = Ok c → app_response h = Ok app →
    current_terminal_window app = Ok (Some window) →
    current_tab window = Ok None → absent h
| absent_session c app window tab :
    create_response h = Ok c → app_response h = Ok app →
    current_terminal_window app = Ok (Some window) →
    current_tab window = Ok (Some tab) →
    current_session tab = Ok None → absent h.

(** The control-code table as the specification lists it. *)
Definition spec_control_table : list (string * nat) :=
  [("c", 3); ("z", 26); ("d", 4); ("l", 12); ("]", 29); ("escape", 27); ("esc", 27)].

(** The five commands of the specification. *)
Definition spec_commands : list string :=
  ["write_text"; "get_content"; "send_control"; "get_tty"; "is_processing"].

(** *** Hosts for the examples *)

Definition plain_session (rows : list string) : Session :=
  {| session_tty := "/dev/ttys004";
     session_busy := true;
     session_input := [];
     send_text_response := Ok ();
     screen_contents_response :=
       Ok (Some {| screen_lines := map (λ r, {| line_string := r |}) rows |});
     session_info_response := Ok (Some {| info_tty := Some "/dev/ttys004" |}) |}.

Definition host_of_tab (t : option Tab) : Host :=
  {| create_response := Ok connection_handle;
     app_response :=
       Ok {| current_terminal_window := Ok (Some {| current_tab := Ok t |}) |} |}.

Definition host_of (s : option Session) : Host :=
  host_of_tab (Some {| current_session := Ok s |}).

Definition host_without_window : Host :=
  {| create_response := Ok connection_handle;
     app_response := Ok {| current_terminal_window := Ok None |} |}.

Definition host_unreachable : Host :=
  {| create_response := Raise "Connection refused";
     app_response := Raise "not connected" |}.

Definition test_host : Host := host_of (Some (plain_session ["foo"; "bar"])).

(** *** The walk shared by the five handlers *)

(** Each handler starts with the same statements; [with_current_session] is
    that prefix, with the block under [if session:] as its argument. *)
Definition with_current_session (block : Session → M (option dict)) : M (option dict) :=
  connection ← Connection_async_create;
  app ← async_get_app connection;
  window ← attr (current_terminal_window app);
  if_truthy window (λ window,
    tab ← attr (current_tab window);
    if_truthy tab (λ tab,
      session ← attr (current_session tab);
      if_truthy session block)).

Definition logged (cs : list Call) (w : World) : World :=
  {| host := host w; calls := calls w ++ cs; stdout := stdout w; stderr := stderr w |}.

(** The body of the loop of [get_content_async]. *)
Definition collect_line (contents : ScreenContents) (i : nat) (lines : list string)
  : M (list string) :=
  line ← attr (line contents i);
  mret (lines ++ [line_string line])%list.

(** *** Results and output lines *)

Definition no_active_session : dict :=
  [("success", VBool false); ("error", VStr "No active session found")].

Definition failure (msg : string) : dict :=
  [("success", VBool false); ("error", VStr msg)].

(** [print(json.dumps(d))] as the text it adds to standard output. *)
Definition json_line (d : dict) : string := json_dumps d +:+ newline.

(** A valid command line: one of the five commands, with the argument
    [write_text] and [send_control] require. *)
Inductive handler_of : list string → M dict → Prop :=
| handler_write_text prog text rest :
    handler_of (prog :: "write_text" :: text :: rest) (write_text_async text)
| handler_get_content prog rest :
    handler_of (prog :: "get_content" :: rest) get_content_async
| handler_send_control prog char rest :
    handler_of (prog :: "send_control" :: char :: rest) (send_control_async char)
| handler_get_tty prog rest :
    handler_of (prog :: "get_tty" :: rest) get_tty_async
| handler_is_processing prog rest :
    handler_of (prog :: "is_processing" :: rest) is_processing_async.

(** ** The class [ITerm2Bridge]

    [main] does not use the class; its methods [get_tty_path] and
    [is_processing] are the second code path of [get_tty] and
    [is_processing], and they are embedded here with [connect] and
    [get_current_session], on which they rest.  The object is its one
    field, passed explicitly. *)
Module ITerm2Bridge.

Record t : Type := { connection : option Connection }.

(** [__init__] *)
Definition init : t := {| connection := None |}.

(** [connect]: the answer and the object afterwards. *)
Definition connect (self : t) : M (bool * t) :=
  try_except
    (c ← Connection_async_create;
     mret (true, {| connection := Some c |}))
    (λ e, print_stderr ("Failed to connect to iTerm2: " +:+ e);;
          mret (false, self)).

Definition get_current_session (self : t) : M (option Session) :=
  match connection self with
  | None => mret None
  | Some connection =>
      try_except
        (app ← async_get_app connection;
         window ← attr (current_terminal_window app);
         match window with
         | Some window =>
             tab ← attr (current_tab window);
             match tab with
             | Some tab => attr (current_session tab)
             | None => mret None
             end
         | None => mret None
         end)
        (λ e, print_stderr ("Failed to get current session: " +:+ e);;
              mret None)
  end.

Definition get_tty_path (self : t) : M dict :=
  try_except
    (session ← get_current_session self;
     match session with
     | None =>
         mret [("success", VBool false); ("error", VStr "No active session found")]
     | Some session =>
         session_info ← async_get_session_info session;
         match session_info with
         | Some {| info_tty := Some tty |} =>
             mret [("success", VBool true); ("tty", VStr tty)]
         | _ =>
             mret [("success", VBool false); ("error", VStr "Could not get TTY path")]
         end
     end)
    (λ e, mret [("success", VBool false); ("error", VStr e)]).

Definition is_processing (self : t) : M dict :=
  try_except
    (session ← get_current_session self;
     match session with
     | None =>
         mret [("success", VBool false); ("error", VStr "No active session found")]
     | Some session =>
         mret [("success", VBool true); ("processing", VBool false)]
     end)
    (λ e, mret [("success", VBool false); ("error", VStr e)]).

(** [write_text] of the class. *)
Definition write_text (self : t) (text : string) : M dict :=
  try_except
    (session ← get_current_session self;
     match session with
     | None =>
         mret [("success", VBool false); ("error", VStr "No active session found")]
     | Some session =>
         async_send_text session text;;
         mret [("success", VBool true)]
     end)
    (λ e, mret [("success", VBool false); ("error", VStr e)]).

(** The table of [send_control_character], written out a second time in
    the source. *)
Definition control_map : gmap string nat :=
  <["c" := 3]> (<["z" := 26]> (<["d" := 4]> (<["l" := 12]> (<["]" := 29]>
    (<["escape" := 27]> (<["esc" := 27]> ∅)))))).

Definition send_control_character (self : t) (char : string) : M dict :=
  try_except
    (session ← get_current_session self;
     match session with
     | None =>
         mret [("success", VBool false); ("error", VStr "No active session found")]
     | Some session =>
         let char_lower := str_lower char in
         match control_map !! char_lower with
         | Some control_code =>
             async_send_text session (chr control_code);;
             mret [("success", VBool true)]
         | None =>
             mret [("success", VBool false);
                   ("error", VStr ("Unknown control character: " +:+ char))]
         end
     end)
    (λ e, mret [("success", VBool false); ("error", VStr e)]).

End ITerm2Bridge.

(** *** Further hosts for the examples *)

(** A session that has gone away: every call on it raises. *)
Definition refusing_session : Session :=
  {| session_tty := "/dev/ttys004";
     session_busy := false;
     session_input := ["ls"];
     send_text_response := Raise "session closed";
     screen_contents_response := Raise "session closed";
     session_info_response := Raise "session closed" |}.

(** A host whose application cannot be fetched. *)
Definition host_without_app : Host :=
  {| create_response := Ok connection_handle;
     app_response := Raise "no application" |}.

(** The sequences of calls one invocation can make, by its command line. *)
Inductive call_shape (argv : list string) : list Call → Prop :=
| shape_none : call_shape argv []
| shape_create : call_shape argv [CallCreate]
| shape_app : call_shape argv [CallCreate; CallGetApp]
| shape_screen :
    argv !! 1 = Some "get_content" →
    call_shape argv [CallCreate; CallGetApp; CallGetScreenContents]
| shape_text text :
    argv !! 1 = Some "write_text" → argv !! 2 = Some text →
    call_shape argv [CallCreate; CallGetApp; CallSendText text]
| shape_control char code :
    argv !! 1 = Some "send_control" → argv !! 2 = Some char →
    (str_lower char, code) ∈ spec_control_table →
    call_shape argv [CallCreate; CallGetApp; CallSendText (chr code)].

(** Every character of [s] is printable ASCII, 0x20 to 0x7E. *)
Fixpoint printable (s : string) : bool :=
  match s with
  | EmptyString => true
  | String c rest => (32 <=? ord c)%nat && (ord c <=? 126)%nat && printable rest
  end.

(** [m] leaves the part of the world read by [part] as it was, whether it
    returns or raises. *)
Definition keeps {X A} (part : World → X) (m : M A) : Prop :=
  ∀ w, part (m w).2 = part w.

(** ** Running the monad *)

Section Runs.
Context {A B : Type}.

Lemma run_bind (m : M A) (f : A → M B) (w : World) :
  (m ≫= f) w =
  match m w with
  | (Ok a, w') => f a w'
  | (Raise msg, w') => (Raise msg, w')
  end.
Proof. reflexivity. Qed.

End Runs.

(** *** Computations that leave a part of the world as it is *)

Section Keeps.
Context {X : Type} (part : World → X).

Lemma keeps_ret {A} (a : A) : keeps part (mret a).
Proof. intros w. reflexivity. Qed.

Lemma keeps_attr {A} (r : exc A) : keeps part (attr r).
Proof. intros w. reflexivity. Qed.

Lemma keeps_get_host : keeps part get_host.
Proof. intros w. reflexivity. Qed.

Lemma keeps_bind {A B} (m : M A) (f : A → M B) :
  keeps part m → (∀ a, keeps part (f a)) → keeps part (m ≫= f).
Proof.
  intros Hm Hf w. rewrite run_bind.
  specialize (Hm w). destruct (m w) as [[a|msg] w']; simpl in *.
  - rewrite Hf. exact Hm.
  - exact Hm.
Qed.

Lemma keeps_index items i : keeps part (index items i).
Proof. unfold index. destruct (items !! i); [apply keeps_ret|apply keeps_attr]. Qed.

Lemma keeps_if_truthy {A} (x : option A) block :
  (∀ a, keeps part (block a)) → keeps part (if_truthy x block).
Proof. intros H. destruct x; simpl; [apply H|apply keeps_ret]. Qed.

Lemma keeps_or_else returned last : keeps part (or_else returned last).
Proof. destruct returned; apply keeps_ret. Qed.

Lemma keeps_for_each {A S} (items : list A) (body : A → S → M S) state :
  (∀ x s, keeps part (body x s)) → keeps part (for_each items body state).
Proof.
  intros H. revert state.
  induction items as [|x rest IH]; intros state; simpl.
  - apply keeps_ret.
  - apply keeps_bind; [apply H|exact IH].
Qed.

End Keeps.

Lemma log_call_keeps_host c : keeps host (log_call c).
Proof. intros w. reflexivity. Qed.

Lemma log_call_keeps_stdout c : keeps stdout (log_call c).
Proof. intros w. reflexivity. Qed.

Lemma log_call_keeps_stderr c : keeps stderr (log_call c).
Proof. intros w. reflexivity. Qed.

Lemma set_host_keeps_stdout h : keeps stdout (set_host h).
Proof. intros w. reflexivity. Qed.

Lemma set_host_keeps_stderr h : keeps stderr (set_host h).
Proof. intros w. reflexivity. Qed.

Create HintDb keeps.

#[export] Hint Resolve keeps_ret keeps_attr keeps_get_host keeps_index
  keeps_or_else log_call_keeps_host log_call_keeps_stdout log_call_keeps_stderr
  set_host_keeps_stdout set_host_keeps_stderr : keeps.

Ltac keeps_steps :=
  repeat first
    [ apply keeps_bind; [|intros]
    | apply keeps_if_truthy; intros
    | apply keeps_for_each; intros
    | match goal with |- keeps _ (match ?x with _ => _ end) => destruct x end
    | solve [auto with keeps] ].

Ltac keeps_api :=
  unfold Connection_async_create, async_get_app, async_send_text,
    async_get_screen_contents, async_get_session_info;
  keeps_steps.

(** The handlers write nothing to standard output themselves. *)
Lemma write_text_async_silent text : keeps stdout (write_text_async text).
Proof. unfold write_text_async. keeps_api. Qed.

Lemma get_content_async_silent : keeps stdout get_content_async.
Proof. unfold get_content_async. keeps_api. Qed.

Lemma send_control_async_silent char : keeps stdout (send_control_async char).
Proof. unfold send_control_async. keeps_api. Qed.

Lemma get_tty_async_silent : keeps stdout get_tty_async.
Proof. unfold get_tty_async. keeps_api. Qed.

Lemma is_processing_async_silent : keeps stdout is_processing_async.
Proof. unfold is_processing_async. keeps_api. Qed.

(** The three handlers that only read leave the host as it is. *)
Lemma get_content_async_reads : keeps host get_content_async.
Proof. unfold get_content_async. keeps_api. Qed.

Lemma get_tty_async_reads : keeps host get_tty_async.
Proof. unfold get_tty_async. keeps_api. Qed.

Lemma is_processing_async_reads : keeps host is_processing_async.
Proof. unfold is_processing_async. keeps_api. Qed.

Ltac walk_host H :=
  unfold resolve in H; simpl in H;
  repeat match type of H with
  | context [match ?x with _ => _ end] =>
      first [ is_var x; destruct x
            | match x with ?f ?y => is_var y; destruct y end ];
      simpl in H; try discriminate H
  end;
  try match type of H with
  | ?f ?y = _ => is_var y; destruct y; simpl in H
  end.

Ltac run_m :=
  unfold Connection_async_create, async_get_app, async_send_text,
    async_get_screen_contents, async_get_session_info, index, or_else,
    if_truthy, print, print_stderr, log_call, set_host, get_host, attr,
    try_except, mbind, M_bind, mret, M_ret;
  cbn.

Lemma with_current_session_resolved block w s :
  resolve (host w) = Ok (Some s) →
  with_current_session block w = block s (logged [CallCreate; CallGetApp] w).
Proof.
  destruct w as [h cs out err]. intros H. walk_host H. subst.
  unfold with_current_session, logged. run_m.
  rewrite <- app_assoc. reflexivity.
Qed.

Lemma with_current_session_absent block w :
  resolve (host w) = Ok None →
  with_current_session block w = (Ok None, logged [CallCreate; CallGetApp] w).
Proof.
  destruct w as [h cs out err]. intros H. walk_host H; subst;
    unfold with_current_session, logged; run_m; rewrite <- app_assoc; reflexivity.
Qed.

Lemma with_current_session_raise block w msg :
  resolve (host w) = Raise msg →
  ∃ cs, with_current_session block w = (Raise msg, logged cs w) ∧
        (cs = [CallCreate] ∨ cs = [CallCreate; CallGetApp]).
Proof.
  destruct w as [h cs out err]. intros H. walk_host H;
    try (injection H as ->); subst;
    unfold with_current_session, logged; run_m;
    first [ exists [CallCreate]; split; [reflexivity|left; reflexivity]
          | exists [CallCreate; CallGetApp]; rewrite <- app_assoc;
            split; [reflexivity|right; reflexivity] ].
Qed.

(** *** The loop of [get_content] *)

Lemma collect_line_run contents i l lines w :
  screen_lines contents !! i = Some l →
  collect_line contents i lines w = (Ok (lines ++ [line_string l])%list, w).
Proof. intros E. unfold collect_line, line. rewrite E. reflexivity. Qed.

Lemma collect_lines_from contents (todo done : list LineContents) acc w :
  screen_lines contents = (done ++ todo)%list →
  for_each (seq (length done) (length todo)) (collect_line contents) acc w
  = (Ok (acc ++ map line_string todo)%list, w).
Proof.
  revert done acc.
  induction todo as [|l todo IH]; intros done acc E; simpl.
  - rewrite app_nil_r. reflexivity.
  - rewrite run_bind, (collect_line_run contents _ l)
      by (rewrite E; apply list_lookup_middle; reflexivity).
    specialize (IH (done ++ [l])%list (acc ++ [line_string l])%list).
    rewrite length_app in IH. simpl in IH.
    rewrite Nat.add_1_r in IH.
    rewrite IH by (rewrite <- app_assoc; exact E).
    rewrite <- app_assoc. reflexivity.
Qed.

Lemma collect_lines contents w :
  for_each (range (number_of_lines contents)) (collect_line contents) [] w
  = (Ok (map line_string (screen_lines contents)), w).
Proof.
  exact (collect_lines_from contents (screen_lines contents) [] [] w eq_refl).
Qed.

(** *** The control-code table *)

Lemma control_map_table key code :
  control_map !! key = Some code ↔ (key, code) ∈ spec_control_table.
Proof.
  unfold control_map, spec_control_table.
  rewrite !lookup_insert_Some, lookup_empty, !elem_of_cons, elem_of_nil.
  split.
  - intros H. repeat (destruct H as [[<- <-]|[? H]]; [tauto|]). discriminate.
  - intros H.
    repeat (destruct H as [[= -> ->]|H];
            [repeat first [left; split; reflexivity
                          | right; split; [discriminate|]]|]).
    contradiction.
Qed.

Lemma control_map_codes key code :
  control_map !! key = Some code → code < 32.
Proof.
  rewrite control_map_table. unfold spec_control_table.
  rewrite !elem_of_cons, elem_of_nil.
  intros H. repeat (destruct H as [[= -> ->]|H]; [lia|]). contradiction.
Qed.

(** *** The handlers, on a resolved session and on an absent one *)

Lemma resolve_absent h : absent h ↔ resolve h = Ok None.
Proof.
  split.
  - intros [c app Hc Ha Hw|c app window Hc Ha Hw Ht|c app window tab Hc Ha Hw Ht Hs];
      unfold resolve; rewrite Hc, Ha, Hw; try rewrite Ht; try rewrite Hs; reflexivity.
  - intros H. unfold resolve in H.
    destruct (create_response h) as [c|] eqn:Hc; [|discriminate].
    destruct (app_response h) as [app|] eqn:Ha; [|discriminate].
    destruct (current_terminal_window app) as [[window|]|] eqn:Hw; [| |discriminate].
    + destruct (current_tab window) as [[tab|]|] eqn:Ht; [| |discriminate].
      * exact (absent_session h c app window tab Hc Ha Hw Ht H).
      * exact (absent_tab h c app window Hc Ha Hw Ht).
    + exact (absent_window h c app Hc Ha Hw).
Qed.

Lemma resolve_set_current_session h s s' :
  resolve h = Ok (Some s) → resolve (set_current_session s' h) = Ok (Some s').
Proof. intros H. walk_host H. subst. reflexivity. Qed.

Lemma logged_logged cs cs' w : logged cs' (logged cs w) = logged (cs ++ cs') w.
Proof. unfold logged. cbn. rewrite <- app_assoc. reflexivity. Qed.

Lemma send_text_accepted s text w :
  send_text_response s = Ok () →
  async_send_text s text w =
  (Ok (), {| host := set_current_session (deliver text s) (host w);
             calls := calls w ++ [CallSendText text];
             stdout := stdout w; stderr := stderr w |}).
Proof. intros E. run_m. rewrite E. reflexivity. Qed.

Lemma send_text_refused s text msg w :
  send_text_response s = Raise msg →
  async_send_text s text w = (Raise msg, logged [CallSendText text] w).
Proof. intros E. run_m. rewrite E. reflexivity. Qed.

Lemma async_get_screen_contents_run s w :
  async_get_screen_contents s w =
  (screen_contents_response s, logged [CallGetScreenContents] w).
Proof. reflexivity. Qed.

(** Every handler is the walk, its own block, and the last [return]. *)
Lemma write_text_async_walk text :
  write_text_async text =
  (with_current_session (λ session,
     async_send_text session text;; mret (Some [("success", VBool true)]))
   ≫= λ returned, or_else returned no_active_session).
Proof. reflexivity. Qed.

Lemma get_content_async_walk :
  get_content_async =
  (with_current_session (λ session,
     contents ← async_get_screen_contents session;
     match contents with
     | Some contents =>
         lines ← for_each (range (number_of_lines contents))
                   (collect_line contents) [];
         mret (Some [("success", VBool true);
                     ("content", VStr (str_join newline lines))])
     | None => mret (Some [("success", VBool true); ("content", VStr "")])
     end)
   ≫= λ returned, or_else returned no_active_session).
Proof. reflexivity. Qed.

Lemma send_control_async_walk char :
  send_control_async char =
  (with_current_session (λ session,
     match control_map !! str_lower char with
     | Some control_code =>
         async_send_text session (chr control_code);;
         mret (Some [("success", VBool true)])
     | None =>
         mret (Some (failure ("Unknown control character: " +:+ char)))
     end)
   ≫= λ returned, or_else returned no_active_session).
Proof. reflexivity. Qed.

Lemma get_tty_async_walk :
  get_tty_async =
  (with_current_session (λ session,
     mret (Some [("success", VBool true); ("tty", VStr "/dev/ttys000")]))
   ≫= λ returned, or_else returned no_active_session).
Proof. reflexivity. Qed.

Lemma is_processing_async_walk :
  is_processing_async =
  (with_current_session (λ session,
     mret (Some [("success", VBool true); ("processing", VBool false)]))
   ≫= λ returned, or_else returned no_active_session).
Proof. reflexivity. Qed.

Lemma walk_absent block w :
  resolve (host w) = Ok None →
  (with_current_session block ≫= λ returned, or_else returned no_active_session) w
  = (Ok no_active_session, logged [CallCreate; CallGetApp] w).
Proof.
  intros H. rewrite run_bind, (with_current_session_absent _ _ H). reflexivity.
Qed.

Lemma walk_raise block w msg :
  resolve (host w) = Raise msg →
  ∃ cs,
    (with_current_session block ≫= λ returned, or_else returned no_active_session) w
    = (Raise msg, logged cs w).
Proof.
  intros H. destruct (with_current_session_raise block w msg H) as (cs & E & _).
  exists cs. rewrite run_bind, E. reflexivity.
Qed.

Lemma handler_of_complete (argv : list string) (command : string) :
  argv !! 1 = Some command → command ∈ spec_commands →
  (command = "write_text" ∨ command = "send_control" → (3 ≤ length argv)%nat) →
  ∃ m, handler_of argv m.
Proof.
  intros Hc Hin Harg.
  destruct argv as [|prog [|c rest]]; try discriminate.
  injection Hc as ->.
  unfold spec_commands in Hin. rewrite !elem_of_cons, elem_of_nil in Hin.
  destruct Hin as [->|[->|[->|[->|[->|[]]]]]].
  - destruct rest as [|text rest];
      [specialize (Harg (or_introl eq_refl)); simpl in Harg; lia|].
    eexists. apply handler_write_text.
  - eexists. apply handler_get_content.
  - destruct rest as [|char rest];
      [specialize (Harg (or_intror eq_refl)); simpl in Harg; lia|].
    eexists. apply handler_send_control.
  - eexists. apply handler_get_tty.
  - eexists. apply handler_is_processing.
Qed.

(** On a valid command line [main] runs the handler and prints its result,
    under the [try]. *)
Lemma main_handler argv m w :
  handler_of argv m →
  main argv w =
  try_except (result ← m; print (json_dumps result))
    (λ e, print (json_dumps (failure e))) w.
Proof. intros []; reflexivity. Qed.

Lemma handler_absent argv m w :
  handler_of argv m → resolve (host w) = Ok None →
  m w = (Ok no_active_session, logged [CallCreate; CallGetApp] w).
Proof.
  intros [] H.
  - rewrite write_text_async_walk. apply walk_absent, H.
  - rewrite get_content_async_walk. apply walk_absent, H.
  - rewrite send_control_async_walk. apply walk_absent, H.
  - rewrite get_tty_async_walk. apply walk_absent, H.
  - rewrite is_processing_async_walk. apply walk_absent, H.
Qed.

Lemma handler_raise argv m w msg :
  handler_of argv m → resolve (host w) = Raise msg →
  ∃ cs, m w = (Raise msg, logged cs w).
Proof.
  intros [] H.
  - rewrite write_text_async_walk. apply walk_raise, H.
  - rewrite get_content_async_walk. apply walk_raise, H.
  - rewrite send_control_async_walk. apply walk_raise, H.
  - rewrite get_tty_async_walk. apply walk_raise, H.
  - rewrite is_processing_async_walk. apply walk_raise, H.
Qed.

Lemma get_content_async_resolved w s :
  resolve (host w) = Ok (Some s) →
  get_content_async w =
  match screen_contents_response s with
  | Ok (Some contents) =>
      (Ok [("success", VBool true);
           ("content", VStr (str_join newline (map line_string (screen_lines contents))))],
       logged [CallCreate; CallGetApp; CallGetScreenContents] w)
  | Ok None =>
      (Ok [("success", VBool true); ("content", VStr "")],
       logged [CallCreate; CallGetApp; CallGetScreenContents] w)
  | Raise msg =>
      (Raise msg, logged [CallCreate; CallGetApp; CallGetScreenContents] w)
  end.
Proof.
  intros H. rewrite get_content_async_walk.
  rewrite run_bind, (with_current_session_resolved _ _ s H), run_bind.
  rewrite async_get_screen_contents_run, logged_logged.
  destruct (screen_contents_response s) as [[contents|]|msg]; try reflexivity.
  rewrite run_bind, collect_lines. reflexivity.
Qed.

Lemma send_control_async_unknown char w s :
  resolve (host w) = Ok (Some s) →
  control_map !! str_lower char = None →
  send_control_async char w =
  (Ok (failure ("Unknown control character: " +:+ char)),
   logged [CallCreate; CallGetApp] w).
Proof.
  intros H E. rewrite send_control_async_walk.
  rewrite run_bind, (with_current_session_resolved _ _ s H), E. reflexivity.
Qed.

Lemma send_control_async_known char w s code :
  resolve (host w) = Ok (Some s) →
  control_map !! str_lower char = Some code →
  send_control_async char w =
  match async_send_text s (chr code) (logged [CallCreate; CallGetApp] w) with
  | (Ok _, w') => (Ok [("success", VBool true)], w')
  | (Raise msg, w') => (Raise msg, w')
  end.
Proof.
  intros H E. rewrite send_control_async_walk.
  rewrite run_bind, (with_current_session_resolved _ _ s H), E, run_bind.
  destruct (async_send_text s (chr code) _) as [[[]|msg] w']; reflexivity.
Qed.

Lemma get_tty_async_resolved w s :
  resolve (host w) = Ok (Some s) →
  get_tty_async w =
  (Ok [("success", VBool true); ("tty", VStr "/dev/ttys000")],
   logged [CallCreate; CallGetApp] w).
Proof.
  intros H. rewrite get_tty_async_walk.
  rewrite run_bind, (with_current_session_resolved _ _ s H). reflexivity.
Qed.

Lemma is_processing_async_resolved w s :
  resolve (host w) = Ok (Some s) →
  is_processing_async w =
  (Ok [("success", VBool true); ("processing", VBool false)],
   logged [CallCreate; CallGetApp] w).
Proof.
  intros H. rewrite is_processing_async_walk.
  rewrite run_bind, (with_current_session_resolved _ _ s H). reflexivity.
Qed.

(** *** The lines of the specification's examples *)

Example json_dumps_success :
  json_dumps [("success", VBool true)]
  = "{" +:+ dquote +:+ "success" +:+ dquote +:+ ": true}".
Proof. reflexivity. Qed.

Example json_dumps_content :
  json_dumps [("success", VBool true); ("content", VStr ("foo" +:+ newline +:+ "bar"))]
  = "{" +:+ dquote +:+ "success" +:+ dquote +:+ ": true, "
        +:+ dquote +:+ "content" +:+ dquote +:+ ": "
        +:+ dquote +:+ "foo\nbar" +:+ dquote +:+ "}".
Proof. reflexivity. Qed.

Example str_lower_escape : str_lower "EsCaPe" = "escape".
Proof. reflexivity. Qed.

Example send_control_upper_c :
  calls (run ["iterm2_bridge.py"; "send_control"; "C"] test_host).2
  = calls (run ["iterm2_bridge.py"; "send_control"; "c"] test_host).2.
Proof. reflexivity. Qed.

Example send_control_zz :
  stdout (run ["iterm2_bridge.py"; "send_control"; "zz"] test_host).2
  = json_line [("success", VBool false);
               ("error", VStr "Unknown control character: zz")].
Proof. reflexivity. Qed.

(** ** The properties of the dispatcher *)

(** C1. [send_control] on a resolved session: when the lowercased argument
    is a key of the table [c:3, z:26, d:4, l:12, ]:29, escape:27, esc:27],
    the one call that sends text sends the one-character string [chr(code)]
    and, the host accepting it, the output is [{"success": true}] and the
    session has received that character; when it is no key, nothing is
    sent, the host is as before and the output is the failure
    ["Unknown control character: "] followed by the argument as given. *)
Theorem send_control_by_table (prog char : string) (rest : list string)
    (h : Host) (session : Session) :
  resolve h = Ok (Some session) →
  let r := run (prog :: "send_control" :: char :: rest) h in
  (∀ code, (str_lower char, code) ∈ spec_control_table →
     calls r.2 = [CallCreate; CallGetApp; CallSendText (chr code)] ∧
     String.length (chr code) = 1 ∧
     (send_text_response session = Ok () →
      r.1 = Ok () ∧
      stdout r.2 = json_line [("success", VBool true)] ∧
      resolve (host r.2) = Ok (Some (deliver (chr code) session))))
  ∧
  ((∀ code, (str_lower char, code) ∉ spec_control_table) →
     r.1 = Ok () ∧
     calls r.2 = [CallCreate; CallGetApp] ∧
     host r.2 = h ∧
     stdout r.2 = json_line [("success", VBool false);
                             ("error", VStr ("Unknown control character: " +:+ char))]).
Proof.
  intros H r. subst r. unfold run.
  rewrite (main_handler _ _ _ (handler_send_control prog char rest)).
  split.
  - intros code Hin. apply control_map_table in Hin.
    unfold try_except. rewrite run_bind.
    rewrite (send_control_async_known char (initial h) session code H Hin).
    destruct (send_text_response session) as [[]|msg] eqn:E.
    + rewrite (send_text_accepted _ _ _ E). cbn.
      split; [reflexivity|split; [reflexivity|intros _]].
      split; [reflexivity|split; [reflexivity|]].
      apply (resolve_set_current_session h session). exact H.
    + rewrite (send_text_refused _ _ msg _ E). cbn.
      split; [reflexivity|split; [reflexivity|intros [=]]].
  - intros Hout.
    assert (E : control_map !! str_lower char = None).
    { destruct (control_map !! str_lower char) as [code|] eqn:E; [|reflexivity].
      apply control_map_table in E. destruct (Hout code E). }
    unfold try_except. rewrite run_bind.
    rewrite (send_control_async_unknown char (initial h) session H E).
    cbn. repeat split; reflexivity.
Qed.

Lemma send_control_by_table_witness :
  calls (run ["iterm2_bridge.py"; "send_control"; "C"] test_host).2
    = [CallCreate; CallGetApp; CallSendText (chr 3)] ∧
  stdout (run ["iterm2_bridge.py"; "send_control"; "C"] test_host).2
    = json_line [("success", VBool true)].
Proof.
  destruct (send_control_by_table "iterm2_bridge.py" "C" [] test_host
              (plain_session ["foo"; "bar"]) eq_refl) as [Hknown _].
  destruct (Hknown 3) as (Hcalls & _ & Hout).
  - vm_compute. left.
  - destruct (Hout eq_refl) as (_ & Hstdout & _).
    split; [exact Hcalls|exact Hstdout].
Defined.

Lemma str_join_one sep x : str_join sep [x] = x.
Proof. reflexivity. Qed.

Lemma str_join_more sep x y items :
  str_join sep (x :: y :: items) = x +:+ sep +:+ str_join sep (y :: items).
Proof. reflexivity. Qed.

(** C2. [get_content] on a resolved session whose screen holds the rows
    [r1 .. rn] prints [{"success": true, "content": c}] with [c] the rows in
    order, joined by one newline; an empty buffer, and a screen the host
    reports as [None], give the empty string. *)
Theorem get_content_joins_rows (prog : string) (rest : list string)
    (h : Host) (session : Session) :
  resolve h = Ok (Some session) →
  let r := run (prog :: "get_content" :: rest) h in
  (∀ contents, screen_contents_response session = Ok (Some contents) →
     r.1 = Ok () ∧
     stdout r.2 =
       json_line [("success", VBool true);
                  ("content",
                   VStr (str_join newline (map line_string (screen_lines contents))))] ∧
     (screen_lines contents = [] →
      stdout r.2 = json_line [("success", VBool true); ("content", VStr "")]))
  ∧
  (screen_contents_response session = Ok None →
     r.1 = Ok () ∧
     stdout r.2 = json_line [("success", VBool true); ("content", VStr "")]).
Proof.
  intros H r. subst r. unfold run.
  rewrite (main_handler _ _ _ (handler_get_content prog rest)).
  unfold try_except. rewrite run_bind.
  rewrite (get_content_async_resolved (initial h) session H).
  split.
  - intros contents E. rewrite E. cbn.
    split; [reflexivity|split; [reflexivity|]].
    intros ->. reflexivity.
  - intros E. rewrite E. cbn. split; reflexivity.
Qed.

Lemma get_content_joins_rows_witness :
  stdout (run ["iterm2_bridge.py"; "get_content"] test_host).2
  = json_line [("success", VBool true);
               ("content", VStr ("foo" +:+ newline +:+ "bar"))].
Proof.
  destruct (get_content_joins_rows "iterm2_bridge.py" [] test_host
              (plain_session ["foo"; "bar"]) eq_refl) as [Hrows _].
  destruct (Hrows _ eq_refl) as (_ & Hout & _).
  exact Hout.
Defined.

(** C3. For each of the five commands, given its argument where it takes
    one: when the window, the tab or the session is absent, the output is
    [{"success": false, "error": "No active session found"}], the same for
    every command and for every place of the absence. *)
Theorem no_session_uniform_failure (argv : list string) (command : string) (h : Host) :
  argv !! 1 = Some command →
  command ∈ spec_commands →
  (command = "write_text" ∨ command = "send_control" → (3 ≤ length argv)%nat) →
  absent h →
  (run argv h).1 = Ok () ∧
  stdout (run argv h).2 =
    json_line [("success", VBool false); ("error", VStr "No active session found")].
Proof.
  intros Hc Hin Harg Habsent.
  destruct (handler_of_complete argv command Hc Hin Harg) as [m Hm].
  apply resolve_absent in Habsent.
  unfold run. rewrite (main_handler _ _ _ Hm).
  unfold try_except. rewrite run_bind.
  rewrite (handler_absent argv m (initial h) Hm Habsent).
  split; reflexivity.
Qed.

Lemma no_session_uniform_failure_witness :
  stdout (run ["iterm2_bridge.py"; "write_text"; "ls"] host_without_window).2
  = json_line [("success", VBool false); ("error", VStr "No active session found")].
Proof.
  refine (proj2 (no_session_uniform_failure
                   ["iterm2_bridge.py"; "write_text"; "ls"] "write_text"
                   host_without_window eq_refl _ _ _)).
  - vm_compute. left.
  - intros _. simpl. lia.
  - apply (absent_window _ connection_handle {| current_terminal_window := Ok None |});
      reflexivity.
Defined.

(** *** One line per invocation *)

Lemma print_keeps_host s : keeps host (print s).
Proof. intros w. reflexivity. Qed.

Lemma keeps_try_except {X A} (part : World → X) (body : M A) handler :
  keeps part body → (∀ e, keeps part (handler e)) → keeps part (try_except body handler).
Proof.
  intros Hb Hh w. unfold try_except.
  specialize (Hb w). destruct (body w) as [[a|msg] w']; simpl in *.
  - exact Hb.
  - rewrite Hh. exact Hb.
Qed.

(** What [print(json.dumps(result))] after a handler does: one line when
    the handler returns, nothing when it raises. *)
Lemma print_result_outcome (m : M dict) w :
  keeps stdout m →
  (∃ d w', (result ← m; print (json_dumps result)) w = (Ok (), w') ∧
           stdout w' = stdout w +:+ json_line d) ∨
  (∃ msg w', (result ← m; print (json_dumps result)) w = (Raise msg, w') ∧
             stdout w' = stdout w).
Proof.
  intros Hm. rewrite run_bind. specialize (Hm w).
  destruct (m w) as [[d|msg] w']; simpl in Hm.
  - left. exists d. eexists. split; [reflexivity|]. cbn. rewrite Hm. reflexivity.
  - right. exists msg, w'. split; [reflexivity|exact Hm].
Qed.

Lemma print_outcome d w :
  ∃ w', print (json_dumps d) w = (Ok (), w') ∧ stdout w' = stdout w +:+ json_line d.
Proof. eexists. split; reflexivity. Qed.

Lemma main_try_outcome (argv : list string) (command : string) w :
  (∃ d w', main_try argv command w = (Ok (), w') ∧
           stdout w' = stdout w +:+ json_line d) ∨
  (∃ msg w', main_try argv command w = (Raise msg, w') ∧ stdout w' = stdout w).
Proof.
  unfold main_try.
  destruct (String.eqb command "write_text").
  { destruct (length argv <? 3)%nat eqn:Hlen.
    - left. exists (failure "No text provided"). apply print_outcome.
    - apply Nat.ltb_ge in Hlen.
      destruct (lookup_lt_is_Some_2 argv 2 Hlen) as [text Ht].
      unfold index. rewrite Ht.
      apply (print_result_outcome (write_text_async text)), write_text_async_silent. }
  destruct (String.eqb command "get_content").
  { apply print_result_outcome, get_content_async_silent. }
  destruct (String.eqb command "send_control").
  { destruct (length argv <? 3)%nat eqn:Hlen.
    - left. exists (failure "No control character provided"). apply print_outcome.
    - apply Nat.ltb_ge in Hlen.
      destruct (lookup_lt_is_Some_2 argv 2 Hlen) as [char Ht].
      unfold index. rewrite Ht.
      apply (print_result_outcome (send_control_async char)), send_control_async_silent. }
  destruct (String.eqb command "get_tty").
  { apply print_result_outcome, get_tty_async_silent. }
  destruct (String.eqb command "is_processing").
  { apply print_result_outcome, is_processing_async_silent. }
  left. exists (failure ("Unknown command: " +:+ command)). apply print_outcome.
Qed.

Lemma main_with_command (argv : list string) (command : string) w :
  argv !! 1 = Some command →
  main argv w =
  try_except (main_try argv command) (λ e, print (json_dumps (failure e))) w.
Proof.
  intros Hc. unfold main.
  assert (Hlen : (length argv <? 2)%nat = false).
  { apply Nat.ltb_ge. apply lookup_lt_Some in Hc. lia. }
  rewrite Hlen. unfold index. rewrite Hc. reflexivity.
Qed.

Lemma main_try_handler argv m command w :
  handler_of argv m → argv !! 1 = Some command →
  main_try argv command w = (result ← m; print (json_dumps result)) w.
Proof. intros [] [= <-]; reflexivity. Qed.

(** C4. Every invocation, whatever the command line and whatever the host
    answers or raises, ends without an exception and with exactly one line
    on standard output, the JSON text of one object; an exception raised
    under the [try] gives [{"success": false, "error": msg}] with its
    message, and so does one raised while connecting or resolving. *)
Theorem main_prints_one_object (argv : list string) (h : Host) :
  (run argv h).1 = Ok () ∧
  (∃ d, stdout (run argv h).2 = json_line d) ∧
  (∀ command msg w',
     argv !! 1 = Some command →
     main_try argv command (initial h) = (Raise msg, w') →
     stdout (run argv h).2 =
       json_line [("success", VBool false); ("error", VStr msg)]) ∧
  (∀ m msg,
     handler_of argv m → resolve h = Raise msg →
     stdout (run argv h).2 =
       json_line [("success", VBool false); ("error", VStr msg)]).
Proof.
  unfold run.
  destruct (argv !! 1) as [command|] eqn:Hc.
  - rewrite (main_with_command argv command _ Hc). unfold try_except.
    destruct (main_try_outcome argv command (initial h))
      as [(d & w' & E & Hout)|(msg & w' & E & Hout)].
    + rewrite E. cbn.
      split; [reflexivity|]. split; [exists d; exact Hout|]. split.
      * intros command' msg w'' [= <-] E'. rewrite E in E'. discriminate.
      * intros m msg Hm Hr.
        rewrite (main_try_handler argv m command _ Hm Hc), run_bind in E.
        destruct (handler_raise argv m (initial h) msg Hm Hr) as [cs Em].
        rewrite Em in E. discriminate.
    + rewrite E. cbn. rewrite Hout. cbn.
      split; [reflexivity|]. split; [exists (failure msg); reflexivity|]. split.
      * intros command' msg' w'' [= <-] E'. rewrite E in E'.
        injection E' as <- _. reflexivity.
      * intros m msg' Hm Hr.
        rewrite (main_try_handler argv m command _ Hm Hc), run_bind in E.
        destruct (handler_raise argv m (initial h) msg' Hm Hr) as [cs Em].
        rewrite Em in E. injection E as <- _. reflexivity.
  - assert (Hlen : (length argv <? 2)%nat = true).
    { apply Nat.ltb_lt. apply lookup_ge_None in Hc. lia. }
    unfold main. rewrite Hlen. cbn.
    split; [reflexivity|]. split; [eexists; reflexivity|]. split.
    + intros command msg w' [=].
    + intros m msg Hm. destruct Hm; discriminate.
Qed.

Lemma main_prints_one_object_witness :
  stdout (run ["iterm2_bridge.py"; "get_tty"] host_unreachable).2
  = json_line [("success", VBool false); ("error", VStr "Connection refused")].
Proof.
  destruct (main_prints_one_object ["iterm2_bridge.py"; "get_tty"] host_unreachable)
    as (_ & _ & Hraise & _).
  apply (Hraise "get_tty" "Connection refused"
           (logged [CallCreate] (initial host_unreachable))); reflexivity.
Defined.

(** C5. [write_text] without its argument prints the failure
    ["No text provided"], [send_control] without its argument
    ["No control character provided"], and a command line without a
    command ["No command specified"]; in the three cases no call to the
    host is made, so no connection is attempted. *)
Theorem missing_argument_failures (prog : string) (h : Host) :
  ((run [prog; "write_text"] h).1 = Ok () ∧
   stdout (run [prog; "write_text"] h).2 =
     json_line [("success", VBool false); ("error", VStr "No text provided")] ∧
   calls (run [prog; "write_text"] h).2 = [])
  ∧
  ((run [prog; "send_control"] h).1 = Ok () ∧
   stdout (run [prog; "send_control"] h).2 =
     json_line [("success", VBool false);
                ("error", VStr "No control character provided")] ∧
   calls (run [prog; "send_control"] h).2 = [])
  ∧
  (∀ argv : list string, (length argv < 2)%nat →
     (run argv h).1 = Ok () ∧
     stdout (run argv h).2 =
       json_line [("success", VBool false); ("error", VStr "No command specified")] ∧
     calls (run argv h).2 = []).
Proof.
  split; [repeat split; reflexivity|].
  split; [repeat split; reflexivity|].
  intros argv Hlen. unfold run, main.
  apply Nat.ltb_lt in Hlen. rewrite Hlen.
  repeat split; reflexivity.
Qed.

Lemma missing_argument_failures_witness :
  stdout (run ["iterm2_bridge.py"] test_host).2 =
    json_line [("success", VBool false); ("error", VStr "No command specified")] ∧
  calls (run ["iterm2_bridge.py"] test_host).2 = [].
Proof.
  destruct (missing_argument_failures "iterm2_bridge.py" test_host) as (_ & _ & Hnone).
  destruct (Hnone ["iterm2_bridge.py"]) as (_ & Hout & Hcalls).
  - simpl. lia.
  - split; [exact Hout|exact Hcalls].
Defined.

(** C6. [get_tty] on a resolved session prints
    [{"success": true, "tty": "/dev/ttys000"}], whatever the device of the
    session is; the handler calls the host to connect and to fetch the
    application and makes no other call, none for the session's data. *)
Theorem get_tty_fixed_placeholder (prog : string) (rest : list string)
    (h : Host) (session : Session) :
  resolve h = Ok (Some session) →
  (run (prog :: "get_tty" :: rest) h).1 = Ok () ∧
  stdout (run (prog :: "get_tty" :: rest) h).2 =
    json_line [("success", VBool true); ("tty", VStr "/dev/ttys000")] ∧
  calls (run (prog :: "get_tty" :: rest) h).2 = [CallCreate; CallGetApp] ∧
  CallGetSessionInfo ∉ calls (run (prog :: "get_tty" :: rest) h).2.
Proof.
  intros H. unfold run.
  rewrite (main_handler _ _ _ (handler_get_tty prog rest)).
  unfold try_except. rewrite run_bind.
  rewrite (get_tty_async_resolved (initial h) session H). cbn.
  split; [reflexivity|split; [reflexivity|split; [reflexivity|]]].
  rewrite !elem_of_cons, elem_of_nil. intros [[=]|[[=]|[]]].
Qed.

Lemma get_tty_fixed_placeholder_witness :
  session_tty (plain_session ["foo"; "bar"]) = "/dev/ttys004" ∧
  stdout (run ["iterm2_bridge.py"; "get_tty"] test_host).2 =
    json_line [("success", VBool true); ("tty", VStr "/dev/ttys000")].
Proof.
  split; [reflexivity|].
  exact (proj1 (proj2 (get_tty_fixed_placeholder "iterm2_bridge.py" [] test_host
                         (plain_session ["foo"; "bar"]) eq_refl))).
Defined.

(** C7. [is_processing] on a resolved session prints
    [{"success": true, "processing": false}], whether or not the session
    runs a foreground job. *)
Theorem is_processing_always_false (prog : string) (rest : list string)
    (h : Host) (session : Session) :
  resolve h = Ok (Some session) →
  (run (prog :: "is_processing" :: rest) h).1 = Ok () ∧
  stdout (run (prog :: "is_processing" :: rest) h).2 =
    json_line [("success", VBool true); ("processing", VBool false)].
Proof.
  intros H. unfold run.
  rewrite (main_handler _ _ _ (handler_is_processing prog rest)).
  unfold try_except. rewrite run_bind.
  rewrite (is_processing_async_resolved (initial h) session H).
  split; reflexivity.
Qed.

Lemma is_processing_always_false_witness :
  session_busy (plain_session ["foo"; "bar"]) = true ∧
  stdout (run ["iterm2_bridge.py"; "is_processing"] test_host).2 =
    json_line [("success", VBool true); ("processing", VBool false)].
Proof.
  split; [reflexivity|].
  exact (proj2 (is_processing_always_false "iterm2_bridge.py" [] test_host
                  (plain_session ["foo"; "bar"]) eq_refl)).
Defined.

(** C8. A command name that is none of the five prints the failure
    ["Unknown command: "] followed by the name, and no call to the host is
    made. *)
Theorem unknown_command_failure (prog command : string) (rest : list string) (h : Host) :
  command ∉ spec_commands →
  (run (prog :: command :: rest) h).1 = Ok () ∧
  stdout (run (prog :: command :: rest) h).2 =
    json_line [("success", VBool false);
               ("error", VStr ("Unknown command: " +:+ command))] ∧
  calls (run (prog :: command :: rest) h).2 = [].
Proof.
  intros Hout. unfold spec_commands in Hout.
  rewrite !not_elem_of_cons in Hout.
  destruct Hout as (H1 & H2 & H3 & H4 & H5 & _).
  apply String.eqb_neq in H1, H2, H3, H4, H5.
  unfold run.
  rewrite (main_with_command (prog :: command :: rest) command _ eq_refl).
  unfold try_except, main_try.
  rewrite H1, H2, H3, H4, H5.
  repeat split; reflexivity.
Qed.

Lemma unknown_command_failure_witness :
  stdout (run ["iterm2_bridge.py"; "Get_Content"] test_host).2 =
    json_line [("success", VBool false);
               ("error", VStr "Unknown command: Get_Content")] ∧
  calls (run ["iterm2_bridge.py"; "Get_Content"] test_host).2 = [].
Proof.
  refine (proj2 (unknown_command_failure "iterm2_bridge.py" "Get_Content" []
                   test_host _)).
  apply (bool_decide_unpack ("Get_Content" ∉ spec_commands)). vm_compute. exact I.
Defined.

(** C10. [send_control] looks for the session before it looks at the table:
    with the window, the tab or the session absent, every argument, in the
    table or not, gives
    [{"success": false, "error": "No active session found"}], never the
    failure about an unknown control character, and nothing is sent. *)
Theorem send_control_resolution_first (prog char : string) (rest : list string) (h : Host) :
  absent h →
  stdout (run (prog :: "send_control" :: char :: rest) h).2 =
    json_line [("success", VBool false); ("error", VStr "No active session found")] ∧
  stdout (run (prog :: "send_control" :: char :: rest) h).2 ≠
    json_line [("success", VBool false);
               ("error", VStr ("Unknown control character: " +:+ char))] ∧
  calls (run (prog :: "send_control" :: char :: rest) h).2 = [CallCreate; CallGetApp].
Proof.
  intros Habsent. apply resolve_absent in Habsent.
  unfold run.
  rewrite (main_handler _ _ _ (handler_send_control prog char rest)).
  unfold try_except. rewrite run_bind.
  rewrite (handler_absent _ _ (initial h) (handler_send_control prog char rest) Habsent).
  cbn.
  split; [reflexivity|split; [|reflexivity]].
  discriminate.
Qed.

Lemma send_control_resolution_first_witness :
  stdout (run ["iterm2_bridge.py"; "send_control"; "zz"] (host_of None)).2 =
    json_line [("success", VBool false); ("error", VStr "No active session found")].
Proof.
  refine (proj1 (send_control_resolution_first "iterm2_bridge.py" "zz" []
                   (host_of None) _)).
  apply (absent_session _ connection_handle
           {| current_terminal_window :=
                Ok (Some {| current_tab := Ok (Some {| current_session := Ok None |}) |}) |}
           {| current_tab := Ok (Some {| current_session := Ok None |}) |}
           {| current_session := Ok None |}); reflexivity.
Defined.

(** *** The methods of the class *)

(** The method [is_processing] of the class answers [False] too. *)
Lemma bridge_is_processing_false c w s :
  resolve (host w) = Ok (Some s) →
  ITerm2Bridge.is_processing {| ITerm2Bridge.connection := Some c |} w =
  (Ok [("success", VBool true); ("processing", VBool false)], logged [CallGetApp] w).
Proof.
  destruct w as [h cs out err]. intros H. walk_host H. subst.
  unfold ITerm2Bridge.is_processing, ITerm2Bridge.get_current_session, logged.
  run_m. reflexivity.
Qed.

(** The method [get_tty_path] of the class asks the session, which the
    handler of [get_tty] in [main] does not. *)
Lemma bridge_get_tty_path_asks c w s :
  resolve (host w) = Ok (Some s) →
  calls (ITerm2Bridge.get_tty_path {| ITerm2Bridge.connection := Some c |} w).2
  = (calls w ++ [CallGetApp; CallGetSessionInfo])%list.
Proof.
  destruct w as [h cs out err]. intros H. walk_host H. subst.
  unfold ITerm2Bridge.get_tty_path, ITerm2Bridge.get_current_session.
  run_m. rewrite <- app_assoc.
  destruct (session_info_response s) as [[[[tty|]]|]|msg]; reflexivity.
Qed.

(** ** Further properties of [main] *)

(** *** [write_text] *)

Lemma write_text_async_resolved text w s :
  resolve (host w) = Ok (Some s) →
  write_text_async text w =
  match async_send_text s text (logged [CallCreate; CallGetApp] w) with
  | (Ok _, w') => (Ok [("success", VBool true)], w')
  | (Raise msg, w') => (Raise msg, w')
  end.
Proof.
  intros H. rewrite write_text_async_walk.
  rewrite run_bind, (with_current_session_resolved _ _ s H), run_bind.
  destruct (async_send_text s text _) as [[[]|msg] w']; reflexivity.
Qed.

Lemma write_text_run prog text rest h s :
  resolve h = Ok (Some s) →
  send_text_response s = Ok () →
  run (prog :: "write_text" :: text :: rest) h =
  (Ok (), {| host := set_current_session (deliver text s) h;
             calls := [CallCreate; CallGetApp; CallSendText text];
             stdout := json_line [("success", VBool true)];
             stderr := "" |}).
Proof.
  intros H E. unfold run.
  rewrite (main_handler _ _ _ (handler_write_text prog text rest)).
  unfold try_except. rewrite run_bind.
  rewrite (write_text_async_resolved text (initial h) s H).
  rewrite (send_text_accepted _ _ _ E). reflexivity.
Qed.

Lemma write_text_refused_run prog text rest h s msg :
  resolve h = Ok (Some s) →
  send_text_response s = Raise msg →
  run (prog :: "write_text" :: text :: rest) h =
  (Ok (), {| host := h;
             calls := [CallCreate; CallGetApp; CallSendText text];
             stdout := json_line (failure msg);
             stderr := "" |}).
Proof.
  intros H E. unfold run.
  rewrite (main_handler _ _ _ (handler_write_text prog text rest)).
  unfold try_except. rewrite run_bind.
  rewrite (write_text_async_resolved text (initial h) s H).
  rewrite (send_text_refused _ _ msg _ E). reflexivity.
Qed.

Lemma send_control_refused_run prog char rest h s code msg :
  resolve h = Ok (Some s) →
  control_map !! str_lower char = Some code →
  send_text_response s = Raise msg →
  run (prog :: "send_control" :: char :: rest) h =
  (Ok (), {| host := h;
             calls := [CallCreate; CallGetApp; CallSendText (chr code)];
             stdout := json_line (failure msg);
             stderr := "" |}).
Proof.
  intros H Hk E. unfold run.
  rewrite (main_handler _ _ _ (handler_send_control prog char rest)).
  unfold try_except. rewrite run_bind.
  rewrite (send_control_async_known char (initial h) s code H Hk).
  rewrite (send_text_refused _ _ msg _ E). reflexivity.
Qed.

(** X1. [write_text] on a resolved session that accepts the send makes one
    send call, of the argument as given (nothing added, also when it is
    empty), the session receives it after what it had, and the output is
    [{"success": true}]. *)
Theorem write_text_sends_argument (prog text : string) (rest : list string)
    (h : Host) (session : Session) :
  resolve h = Ok (Some session) →
  send_text_response session = Ok () →
  (run (prog :: "write_text" :: text :: rest) h).1 = Ok () ∧
  stdout (run (prog :: "write_text" :: text :: rest) h).2
    = json_line [("success", VBool true)] ∧
  calls (run (prog :: "write_text" :: text :: rest) h).2
    = [CallCreate; CallGetApp; CallSendText text] ∧
  ∃ session',
    resolve (host (run (prog :: "write_text" :: text :: rest) h).2)
      = Ok (Some session') ∧
    session_input session' = (session_input session ++ [text])%list.
Proof.
  intros H E. rewrite (write_text_run prog text rest h session H E). cbn.
  split; [reflexivity|split; [reflexivity|split; [reflexivity|]]].
  exists (deliver text session). split; [|reflexivity].
  apply (resolve_set_current_session h session), H.
Qed.

Lemma write_text_sends_argument_witness :
  calls (run ["iterm2_bridge.py"; "write_text"; ""] test_host).2
    = [CallCreate; CallGetApp; CallSendText ""].
Proof.
  exact (proj1 (proj2 (proj2
    (write_text_sends_argument "iterm2_bridge.py" "" [] test_host
       (plain_session ["foo"; "bar"]) eq_refl eq_refl)))).
Defined.

(** X2. When the host answers the send with an exception, [write_text] and
    [send_control] (on a key of the table) end normally and print
    [{"success": false, "error": msg}] with the message of the exception;
    the send was tried once, with the text of the command, and not again. *)
Theorem refused_send_reported (prog arg msg : string) (rest : list string)
    (h : Host) (session : Session) :
  resolve h = Ok (Some session) →
  send_text_response session = Raise msg →
  (stdout (run (prog :: "write_text" :: arg :: rest) h).2
     = json_line [("success", VBool false); ("error", VStr msg)] ∧
   calls (run (prog :: "write_text" :: arg :: rest) h).2
     = [CallCreate; CallGetApp; CallSendText arg] ∧
   (run (prog :: "write_text" :: arg :: rest) h).1 = Ok ())
  ∧
  (∀ code, (str_lower arg, code) ∈ spec_control_table →
   stdout (run (prog :: "send_control" :: arg :: rest) h).2
     = json_line [("success", VBool false); ("error", VStr msg)] ∧
   calls (run (prog :: "send_control" :: arg :: rest) h).2
     = [CallCreate; CallGetApp; CallSendText (chr code)] ∧
   (run (prog :: "send_control" :: arg :: rest) h).1 = Ok ()).
Proof.
  intros H E. split.
  - rewrite (write_text_refused_run prog arg rest h session msg H E).
    repeat split; reflexivity.
  - intros code Hin. apply control_map_table in Hin.
    rewrite (send_control_refused_run prog arg rest h session code msg H Hin E).
    repeat split; reflexivity.
Qed.

Lemma refused_send_reported_witness :
  stdout (run ["iterm2_bridge.py"; "write_text"; "pwd"]
            (host_of (Some refusing_session))).2
    = json_line [("success", VBool false); ("error", VStr "session closed")] ∧
  calls (run ["iterm2_bridge.py"; "write_text"; "pwd"]
           (host_of (Some refusing_session))).2
    = [CallCreate; CallGetApp; CallSendText "pwd"].
Proof.
  destruct (refused_send_reported "iterm2_bridge.py" "pwd" "session closed" []
              (host_of (Some refusing_session)) refusing_session eq_refl eq_refl)
    as [(Hout & Hcalls & _) _].
  split; [exact Hout|exact Hcalls].
Defined.

(** X3. Two [write_text] runs one after the other, on a session that accepts
    the sends: the session has received the first text and then the second,
    after what it had. *)
Theorem write_text_in_order (prog text1 text2 : string) (h : Host) (session : Session) :
  resolve h = Ok (Some session) →
  send_text_response session = Ok () →
  ∃ session',
    resolve (host (run [prog; "write_text"; text2]
                     (host (run [prog; "write_text"; text1] h).2)).2)
      = Ok (Some session') ∧
    session_input session' = (session_input session ++ [text1; text2])%list.
Proof.
  intros H E.
  rewrite (write_text_run prog text1 [] h session H E). cbn [snd host].
  assert (H1 := resolve_set_current_session h session (deliver text1 session) H).
  rewrite (write_text_run prog text2 [] _ (deliver text1 session) H1 E).
  cbn [snd host].
  exists (deliver text2 (deliver text1 session)). split.
  - apply (resolve_set_current_session _ (deliver text1 session)), H1.
  - cbn. rewrite <- app_assoc. reflexivity.
Qed.

Lemma write_text_in_order_witness :
  ∃ session',
    resolve (host (run ["iterm2_bridge.py"; "write_text"; "ls"]
                     (host (run ["iterm2_bridge.py"; "write_text"; "cd /"]
                              test_host).2)).2)
      = Ok (Some session') ∧
    session_input session' = ["cd /"; "ls"].
Proof.
  exact (write_text_in_order "iterm2_bridge.py" "cd /" "ls" test_host
           (plain_session ["foo"; "bar"]) eq_refl eq_refl).
Defined.

(** *** The calls of one invocation *)

Lemma print_keeps_calls s : keeps calls (print s).
Proof. intros w. reflexivity. Qed.

Lemma print_keeps_stderr s : keeps stderr (print s).
Proof. intros w. reflexivity. Qed.

Lemma print_result_calls (m : M dict) w :
  calls ((result ← m; print (json_dumps result)) w).2 = calls (m w).2.
Proof. rewrite run_bind. destruct (m w) as [[d|msg] w']; reflexivity. Qed.

Lemma try_except_calls {A} (body : M A) handler w :
  (∀ e, keeps calls (handler e)) →
  calls (try_except body handler w).2 = calls (body w).2.
Proof.
  intros Hh. unfold try_except.
  destruct (body w) as [[a|msg] w']; [reflexivity|apply Hh].
Qed.

Lemma walk_raise_calls block h msg :
  resolve h = Raise msg →
  calls ((with_current_session block
          ≫= λ returned, or_else returned no_active_session) (initial h)).2
    = [CallCreate] ∨
  calls ((with_current_session block
          ≫= λ returned, or_else returned no_active_session) (initial h)).2
    = [CallCreate; CallGetApp].
Proof.
  intros H.
  destruct (with_current_session_raise block (initial h) msg H) as (cs & E & Hcs).
  rewrite run_bind, E. cbn. destruct Hcs as [->| ->]; [left|right]; reflexivity.
Qed.

Lemma send_text_calls s text w :
  calls (async_send_text s text w).2 = (calls w ++ [CallSendText text])%list.
Proof.
  destruct (send_text_response s) as [[]|msg] eqn:E.
  - rewrite (send_text_accepted _ _ _ E). reflexivity.
  - rewrite (send_text_refused _ _ msg _ E). reflexivity.
Qed.

Lemma write_text_async_shape prog text rest h :
  call_shape (prog :: "write_text" :: text :: rest)
    (calls (write_text_async text (initial h)).2).
Proof.
  destruct (resolve h) as [[s|]|msg] eqn:H.
  - rewrite (write_text_async_resolved text (initial h) s H).
    assert (Hc := send_text_calls s text (logged [CallCreate; CallGetApp] (initial h))).
    destruct (async_send_text s text _) as [[[]|msg] w']; cbn in *; rewrite Hc;
      apply shape_text; reflexivity.
  - rewrite (handler_absent _ _ (initial h) (handler_write_text prog text rest) H).
    apply shape_app.
  - rewrite write_text_async_walk.
    destruct (walk_raise_calls
                (λ session, async_send_text session text;;
                            mret (Some [("success", VBool true)])) h msg H)
      as [-> | ->]; [apply shape_create|apply shape_app].
Qed.

Lemma send_control_async_shape prog char rest h :
  call_shape (prog :: "send_control" :: char :: rest)
    (calls (send_control_async char (initial h)).2).
Proof.
  destruct (resolve h) as [[s|]|msg] eqn:H.
  - destruct (control_map !! str_lower char) as [code|] eqn:Hk.
    + rewrite (send_control_async_known char (initial h) s code H Hk).
      assert (Hc := send_text_calls s (chr code)
                      (logged [CallCreate; CallGetApp] (initial h))).
      apply control_map_table in Hk.
      destruct (async_send_text s (chr code) _) as [[[]|msg] w']; cbn in *; rewrite Hc;
        apply (shape_control _ char code); try reflexivity; exact Hk.
    + rewrite (send_control_async_unknown char (initial h) s H Hk). apply shape_app.
  - rewrite (handler_absent _ _ (initial h) (handler_send_control prog char rest) H).
    apply shape_app.
  - rewrite send_control_async_walk.
    match goal with
    | |- context [with_current_session ?block] =>
        destruct (walk_raise_calls block h msg H) as [-> | ->]
    end; [apply shape_create|apply shape_app].
Qed.

Lemma get_content_async_shape prog rest h :
  call_shape (prog :: "get_content" :: rest) (calls (get_content_async (initial h)).2).
Proof.
  destruct (resolve h) as [[s|]|msg] eqn:H.
  - rewrite (get_content_async_resolved (initial h) s H).
    destruct (screen_contents_response s) as [[contents|]|msg];
      apply shape_screen; reflexivity.
  - rewrite (handler_absent _ _ (initial h) (handler_get_content prog rest) H).
    apply shape_app.
  - rewrite get_content_async_walk.
    match goal with
    | |- context [with_current_session ?block] =>
        destruct (walk_raise_calls block h msg H) as [-> | ->]
    end; [apply shape_create|apply shape_app].
Qed.

Lemma get_tty_async_shape argv h :
  call_shape argv (calls (get_tty_async (initial h)).2).
Proof.
  destruct (resolve h) as [[s|]|msg] eqn:H.
  - rewrite (get_tty_async_resolved (initial h) s H). apply shape_app.
  - rewrite (handler_absent _ _ (initial h) (handler_get_tty "" []) H). apply shape_app.
  - rewrite get_tty_async_walk.
    match goal with
    | |- context [with_current_session ?block] =>
        destruct (walk_raise_calls block h msg H) as [-> | ->]
    end; [apply shape_create|apply shape_app].
Qed.

Lemma is_processing_async_shape argv h :
  call_shape argv (calls (is_processing_async (initial h)).2).
Proof.
  destruct (resolve h) as [[s|]|msg] eqn:H.
  - rewrite (is_processing_async_resolved (initial h) s H). apply shape_app.
  - rewrite (handler_absent _ _ (initial h) (handler_is_processing "" []) H).
    apply shape_app.
  - rewrite is_processing_async_walk.
    match goal with
    | |- context [with_current_session ?block] =>
        destruct (walk_raise_calls block h msg H) as [-> | ->]
    end; [apply shape_create|apply shape_app].
Qed.

Lemma run_call_shape (argv : list string) (h : Host) :
  call_shape argv (calls (run argv h).2).
Proof.
  unfold run.
  destruct (argv !! 1) as [command|] eqn:Hc.
  - rewrite (main_with_command argv command _ Hc).
    rewrite try_except_calls by (intros; apply print_keeps_calls).
    destruct argv as [|prog [|c rest]]; try discriminate.
    injection Hc as ->. unfold main_try.
    destruct (String.eqb_spec command "write_text") as [->|_].
    { destruct rest as [|text rest]; [apply shape_none|].
      cbn [length Nat.ltb Nat.leb]. unfold index. cbn [lookup list_lookup].
      change (mret text ≫= ?f) with (f text). cbv beta.
      rewrite print_result_calls. apply write_text_async_shape. }
    destruct (String.eqb_spec command "get_content") as [->|_].
    { rewrite print_result_calls. apply get_content_async_shape. }
    destruct (String.eqb_spec command "send_control") as [->|_].
    { destruct rest as [|char rest]; [apply shape_none|].
      cbn [length Nat.ltb Nat.leb]. unfold index. cbn [lookup list_lookup].
      change (mret char ≫= ?f) with (f char). cbv beta.
      rewrite print_result_calls. apply send_control_async_shape. }
    destruct (String.eqb_spec command "get_tty") as [->|_].
    { rewrite print_result_calls. apply get_tty_async_shape. }
    destruct (String.eqb_spec command "is_processing") as [->|_].
    { rewrite print_result_calls. apply is_processing_async_shape. }
    apply shape_none.
  - assert (Hlen : (length argv <? 2)%nat = true).
    { apply Nat.ltb_lt. apply lookup_ge_None in Hc. lia. }
    unfold main. rewrite Hlen. apply shape_none.
Qed.

(** X4. The calls of one invocation, in order, are one of: none; the
    connection; the connection and the application; these two and one
    screen read, for [get_content] only; these two and one send of the
    second argument, for [write_text] only; these two and one send of
    [chr(code)] for the table's code of the lowercased second argument, for
    [send_control] only. *)
Theorem invocation_call_sequences (argv : list string) (h : Host) :
  call_shape argv (calls (run argv h).2).
Proof. apply run_call_shape. Qed.

(** X5. Text reaches the session only through [write_text], which sends its
    argument, and [send_control], which sends one character with a code
    below 32 taken from the table: no invocation sends anything else. *)
Theorem sends_only_what_was_asked (argv : list string) (h : Host) (text : string) :
  CallSendText text ∈ calls (run argv h).2 →
  (argv !! 1 = Some "write_text" ∧ argv !! 2 = Some text) ∨
  (argv !! 1 = Some "send_control" ∧
   ∃ char code, argv !! 2 = Some char ∧
                (str_lower char, code) ∈ spec_control_table ∧
                (code < 32)%nat ∧ text = chr code).
Proof.
  intros Hin.
  destruct (run_call_shape argv h) as [| | | |text' H1 H2|char code H1 H2 Ht];
    rewrite ?elem_of_cons, ?elem_of_nil in Hin.
  - destruct Hin.
  - destruct Hin as [[=]|[]].
  - destruct Hin as [[=]|[[=]|[]]].
  - destruct Hin as [[=]|[[=]|[[=]|[]]]].
  - destruct Hin as [[=]|[[=]|[[= ->]|[]]]]. left. split; assumption.
  - destruct Hin as [[=]|[[=]|[[= ->]|[]]]]. right. split; [assumption|].
    exists char, code. repeat split; try assumption.
    apply (control_map_codes (str_lower char)), control_map_table, Ht.
Qed.

Lemma sends_only_what_was_asked_witness :
  (["iterm2_bridge.py"; "send_control"; "Esc"] : list string) !! 1 = Some "write_text" ∧
  (["iterm2_bridge.py"; "send_control"; "Esc"] : list string) !! 2 = Some (chr 27)
  ∨
  (["iterm2_bridge.py"; "send_control"; "Esc"] : list string) !! 1 = Some "send_control" ∧
  ∃ char code,
    (["iterm2_bridge.py"; "send_control"; "Esc"] : list string) !! 2 = Some char ∧
    (str_lower char, code) ∈ spec_control_table ∧ (code < 32)%nat ∧ chr 27 = chr code.
Proof.
  apply (sends_only_what_was_asked ["iterm2_bridge.py"; "send_control"; "Esc"]
           test_host (chr 27)).
  vm_compute. right. right. left.
Defined.

(** X6. An invocation connects at most once, before any other call, and
    makes at most three calls in all. *)
Theorem connects_once_and_first (argv : list string) (h : Host) :
  calls (run argv h).2 = [] ∨
  ∃ others, calls (run argv h).2 = CallCreate :: others ∧
            (CallCreate ∉ others) ∧ (length others ≤ 2)%nat.
Proof.
  destruct (run_call_shape argv h); [left; reflexivity|right..];
    eexists; (split; [reflexivity|]); (split; [|simpl; lia]);
    rewrite ?not_elem_of_cons; repeat split; try discriminate; apply not_elem_of_nil.
Qed.

(** *** What an invocation leaves alone *)

#[export] Hint Resolve print_keeps_host print_keeps_calls print_keeps_stderr : keeps.

(** X7. Only [write_text] and [send_control] can change the host: with any
    other command line (the three reading commands, an unknown command, no
    command) the host after the run is the host before it, whatever it
    answers or raises. *)
Theorem other_commands_keep_host (argv : list string) (h : Host) :
  argv !! 1 ≠ Some "write_text" →
  argv !! 1 ≠ Some "send_control" →
  host (run argv h).2 = h.
Proof.
  intros Hw Hs. unfold run.
  change h with (host (initial h)) at 2. generalize (initial h). intros w.
  destruct (argv !! 1) as [command|] eqn:Hc.
  - rewrite (main_with_command argv command _ Hc).
    apply (keeps_try_except host); [|intros; apply print_keeps_host].
    unfold main_try.
    destruct (String.eqb_spec command "write_text") as [->|_]; [contradiction|].
    destruct (String.eqb command "get_content").
    { apply keeps_bind; [apply get_content_async_reads|intros; apply print_keeps_host]. }
    destruct (String.eqb_spec command "send_control") as [->|_]; [contradiction|].
    destruct (String.eqb command "get_tty").
    { apply keeps_bind; [apply get_tty_async_reads|intros; apply print_keeps_host]. }
    destruct (String.eqb command "is_processing").
    { apply keeps_bind; [apply is_processing_async_reads|intros; apply print_keeps_host]. }
    apply print_keeps_host.
  - assert (Hlen : (length argv <? 2)%nat = true).
    { apply Nat.ltb_lt. apply lookup_ge_None in Hc. lia. }
    unfold main. rewrite Hlen. reflexivity.
Qed.

Lemma other_commands_keep_host_witness :
  host (run ["iterm2_bridge.py"; "get_content"] (host_of (Some refusing_session))).2
  = host_of (Some refusing_session).
Proof.
  apply (other_commands_keep_host ["iterm2_bridge.py"; "get_content"]
           (host_of (Some refusing_session))); simpl; discriminate.
Defined.

Lemma main_try_keeps_stderr argv command : keeps stderr (main_try argv command).
Proof.
  unfold main_try, write_text_async, get_content_async, send_control_async,
    get_tty_async, is_processing_async.
  repeat match goal with
         | |- keeps _ (if ?b then _ else _) => destruct b
         end; keeps_api.
Qed.

(** X8. [main] writes nothing to standard error, on any command line and
    whatever the host answers or raises: every failure goes to standard
    output as the JSON line. *)
Theorem main_silent_on_stderr (argv : list string) (h : Host) :
  stderr (run argv h).2 = "".
Proof.
  unfold run. change "" with (stderr (initial h)). generalize (initial h). intros w.
  unfold main. destruct (length argv <? 2)%nat; [reflexivity|].
  apply keeps_bind; [apply keeps_index|intros command].
  apply (keeps_try_except stderr); [apply main_try_keeps_stderr|].
  intros; apply print_keeps_stderr.
Qed.

(** *** The argument of [send_control] and the rest of the command line *)

Lemma with_current_session_unresolved block block' w :
  (∀ s, resolve (host w) ≠ Ok (Some s)) →
  with_current_session block w = with_current_session block' w.
Proof.
  intros Hno. destruct (resolve (host w)) as [[s|]|msg] eqn:H.
  - destruct (Hno s eq_refl).
  - rewrite !(with_current_session_absent _ _ H). reflexivity.
  - clear Hno. destruct w as [h cs out err]. walk_host H;
      try (injection H as ->); subst;
      unfold with_current_session; run_m; reflexivity.
Qed.

Lemma send_control_run_known prog char char' rest h code :
  str_lower char = str_lower char' →
  control_map !! str_lower char = Some code →
  run (prog :: "send_control" :: char :: rest) h
  = run (prog :: "send_control" :: char' :: rest) h.
Proof.
  intros Heq Hk. unfold run.
  rewrite (main_handler _ _ _ (handler_send_control prog char rest)).
  rewrite (main_handler _ _ _ (handler_send_control prog char' rest)).
  rewrite !send_control_async_walk, <- Heq, Hk. reflexivity.
Qed.

Lemma send_control_run_unknown prog char rest h :
  control_map !! str_lower char = None →
  calls (run (prog :: "send_control" :: char :: rest) h).2
    = calls (get_tty_async (initial h)).2 ∧
  host (run (prog :: "send_control" :: char :: rest) h).2 = h ∧
  (run (prog :: "send_control" :: char :: rest) h).1 = Ok ().
Proof.
  intros Hk. unfold run.
  rewrite (main_handler _ _ _ (handler_send_control prog char rest)).
  unfold try_except. rewrite run_bind, send_control_async_walk, get_tty_async_walk.
  rewrite Hk, !run_bind.
  destruct (resolve h) as [[s|]|msg] eqn:H.
  - rewrite !(with_current_session_resolved _ (initial h) s H). repeat split; reflexivity.
  - rewrite !(with_current_session_absent _ (initial h) H). repeat split; reflexivity.
  - destruct (with_current_session_raise
                (λ _ : Session,
                   mret (Some (failure ("Unknown control character: " +:+ char))))
                (initial h) msg H) as (cs & E & _).
    rewrite (with_current_session_unresolved
               (λ _ : Session,
                  mret (Some [("success", VBool true); ("tty", VStr "/dev/ttys000")]))
               (λ _ : Session,
                  mret (Some (failure ("Unknown control character: " +:+ char))))
               (initial h)) by (intros s; simpl; rewrite H; discriminate).
    rewrite E. repeat split; reflexivity.
Qed.

(** X9. [send_control] does not see the case of its argument: two arguments
    with the same lowercase form make the same calls, leave the same host
    and end the same way; when that form is a key of the table the two runs
    are the same in everything, output included. *)
Theorem send_control_ignores_case (prog char char' : string) (rest : list string)
    (h : Host) :
  str_lower char = str_lower char' →
  calls (run (prog :: "send_control" :: char :: rest) h).2
    = calls (run (prog :: "send_control" :: char' :: rest) h).2 ∧
  host (run (prog :: "send_control" :: char :: rest) h).2
    = host (run (prog :: "send_control" :: char' :: rest) h).2 ∧
  (run (prog :: "send_control" :: char :: rest) h).1
    = (run (prog :: "send_control" :: char' :: rest) h).1 ∧
  (∀ code, (str_lower char, code) ∈ spec_control_table →
     run (prog :: "send_control" :: char :: rest) h
     = run (prog :: "send_control" :: char' :: rest) h).
Proof.
  intros Heq.
  destruct (control_map !! str_lower char) as [code|] eqn:Hk.
  - rewrite (send_control_run_known prog char char' rest h code Heq Hk).
    repeat split; reflexivity.
  - destruct (send_control_run_unknown prog char rest h Hk) as (-> & -> & ->).
    rewrite Heq in Hk.
    destruct (send_control_run_unknown prog char' rest h Hk) as (-> & -> & ->).
    split; [reflexivity|split; [reflexivity|split; [reflexivity|]]].
    intros code Hin. rewrite Heq in Hin.
    apply control_map_table in Hin. rewrite Hk in Hin. discriminate.
Qed.

Lemma send_control_ignores_case_witness :
  run ["iterm2_bridge.py"; "send_control"; "ESCAPE"] test_host
  = run ["iterm2_bridge.py"; "send_control"; "Escape"] test_host.
Proof.
  destruct (send_control_ignores_case "iterm2_bridge.py" "ESCAPE" "Escape" []
              test_host eq_refl) as (_ & _ & _ & Hsame).
  apply (Hsame 27). vm_compute. do 5 right. left.
Defined.

(** X10. [main] reads its command line at the positions 1 and 2 only: the
    program name and every argument after the second change nothing. *)
Theorem main_reads_two_arguments (argv argv' : list string) (h : Host) :
  argv !! 1 = argv' !! 1 →
  argv !! 2 = argv' !! 2 →
  run argv h = run argv' h.
Proof.
  intros H1 H2.
  destruct argv as [|prog [|command [|arg rest]]];
    destruct argv' as [|prog' [|command' [|arg' rest']]];
    try discriminate; try reflexivity;
    injection H1 as <-; try discriminate; try reflexivity.
  injection H2 as <-. reflexivity.
Qed.

Lemma main_reads_two_arguments_witness :
  run ["iterm2_bridge.py"; "write_text"; "ls"; "-l"] test_host
  = run ["bridge"; "write_text"; "ls"] test_host.
Proof.
  apply (main_reads_two_arguments
           ["iterm2_bridge.py"; "write_text"; "ls"; "-l"]
           ["bridge"; "write_text"; "ls"] test_host); reflexivity.
Defined.

(** *** The text of the output line *)

Lemma printable_app a b : printable (a +:+ b) = printable a && printable b.
Proof.
  induction a as [|c a IH]; simpl; [reflexivity|].
  rewrite IH, andb_assoc. reflexivity.
Qed.

Lemma escape_char_printable c : printable (escape_char c) = true.
Proof. destruct c as [[] [] [] [] [] [] [] []]; reflexivity. Qed.

Lemma escape_string_printable s : printable (escape_string s) = true.
Proof.
  induction s as [|c s IH]; simpl; [reflexivity|].
  rewrite printable_app, escape_char_printable, IH. reflexivity.
Qed.

Lemma encode_string_printable s : printable (encode_string s) = true.
Proof.
  unfold encode_string. rewrite !printable_app, escape_string_printable. reflexivity.
Qed.

Lemma encode_item_printable kv : printable (encode_item kv) = true.
Proof.
  unfold encode_item. rewrite !printable_app, encode_string_printable.
  destruct kv as [k [[]|s]]; simpl; try reflexivity.
  apply encode_string_printable.
Qed.

Lemma str_join_printable sep items :
  printable sep = true →
  (∀ x, x ∈ items → printable x = true) →
  printable (str_join sep items) = true.
Proof.
  intros Hsep. induction items as [|x [|y items] IH]; intros Hall.
  - reflexivity.
  - apply Hall. left.
  - rewrite str_join_more, !printable_app, Hsep.
    rewrite (Hall x) by left. rewrite IH; [reflexivity|].
    intros z Hz. apply Hall. right. exact Hz.
Qed.

Lemma json_dumps_printable d : printable (json_dumps d) = true.
Proof.
  unfold json_dumps. rewrite !printable_app.
  rewrite str_join_printable; [reflexivity|reflexivity|].
  intros x Hx. apply list_elem_of_fmap in Hx as (kv & -> & _).
  apply encode_item_printable.
Qed.

Lemma run_stdout (argv : list string) (h : Host) :
  ∃ d, stdout (run argv h).2 = json_line d.
Proof.
  unfold run.
  destruct (argv !! 1) as [command|] eqn:Hc.
  - rewrite (main_with_command argv command _ Hc). unfold try_except.
    destruct (main_try_outcome argv command (initial h))
      as [(d & w' & E & Hout)|(msg & w' & E & Hout)]; rewrite E.
    + exists d. exact Hout.
    + exists (failure msg). cbn. rewrite Hout. reflexivity.
  - assert (Hlen : (length argv <? 2)%nat = true).
    { apply Nat.ltb_lt. apply lookup_ge_None in Hc. lia. }
    unfold main. rewrite Hlen. eexists. reflexivity.
Qed.

(** X11. What an invocation writes to standard output is one line: a text
    of printable ASCII characters only, so without any line break in it,
    whatever the arguments, the screen or the exception messages contain,
    and then the newline. *)
Theorem stdout_is_one_printable_line (argv : list string) (h : Host) :
  ∃ text, stdout (run argv h).2 = text +:+ newline ∧ printable text = true.
Proof.
  destruct (run_stdout argv h) as [d Hd].
  exists (json_dumps d). split; [exact Hd|apply json_dumps_printable].
Qed.

(** ** Further properties of the class [ITerm2Bridge] *)

Ltac bridge_m :=
  unfold ITerm2Bridge.connect, ITerm2Bridge.write_text,
    ITerm2Bridge.send_control_character, ITerm2Bridge.get_tty_path,
    ITerm2Bridge.is_processing, ITerm2Bridge.get_current_session, logged;
  run_m.

Lemma bridge_control_map : ITerm2Bridge.control_map = control_map.
Proof. reflexivity. Qed.

(** X12. [connect] never raises: when the host accepts the connection it
    answers [True] and the object holds the connection; when the host
    raises it answers [False], leaves the object as it was and writes
    ["Failed to connect to iTerm2: "] and the message to standard error,
    nothing to standard output. *)
Theorem bridge_connect_outcome (self : ITerm2Bridge.t) (w : World) :
  (∀ c, create_response (host w) = Ok c →
     ITerm2Bridge.connect self w =
     (Ok (true, {| ITerm2Bridge.connection := Some c |}), logged [CallCreate] w))
  ∧
  (∀ msg, create_response (host w) = Raise msg →
     ITerm2Bridge.connect self w =
     (Ok (false, self),
      {| host := host w; calls := calls w ++ [CallCreate]; stdout := stdout w;
         stderr := stderr w +:+ ("Failed to connect to iTerm2: " +:+ msg) +:+ newline |})).
Proof.
  split; intros x E; bridge_m; rewrite E; reflexivity.
Qed.

Lemma bridge_connect_outcome_witness :
  ITerm2Bridge.connect ITerm2Bridge.init (initial host_unreachable) =
  (Ok (false, ITerm2Bridge.init),
   {| host := host_unreachable; calls := [CallCreate]; stdout := "";
      stderr := "Failed to connect to iTerm2: Connection refused" +:+ newline |}).
Proof.
  exact (proj2 (bridge_connect_outcome ITerm2Bridge.init (initial host_unreachable))
           "Connection refused" eq_refl).
Defined.

(** What [get_current_session] answers on a connected object, by the host. *)
Lemma bridge_get_current_session_run c w :
  ITerm2Bridge.get_current_session {| ITerm2Bridge.connection := Some c |} w =
  match app_response (host w) with
  | Raise msg =>
      (Ok None,
       {| host := host w; calls := calls w ++ [CallGetApp]; stdout := stdout w;
          stderr := stderr w +:+ ("Failed to get current session: " +:+ msg)
                             +:+ newline |})
  | Ok app =>
      match
        match current_terminal_window app with
        | Raise msg => Raise msg
        | Ok None => Ok None
        | Ok (Some window) =>
            match current_tab window with
            | Raise msg => Raise msg
            | Ok None => Ok None
            | Ok (Some tab) => current_session tab
            end
        end
      with
      | Ok r => (Ok r, logged [CallGetApp] w)
      | Raise msg =>
          (Ok None,
           {| host := host w; calls := calls w ++ [CallGetApp]; stdout := stdout w;
              stderr := stderr w +:+ ("Failed to get current session: " +:+ msg)
                                 +:+ newline |})
      end
  end.
Proof.
  bridge_m.
  repeat match goal with
         | |- context [match ?x with _ => _ end] =>
             lazymatch x with
             | context [match _ with _ => _ end] => fail
             | _ => destruct x
             end
         end; reflexivity.
Qed.

(** X13. [get_current_session] never raises and never touches the host or
    standard output.  Without a connection it answers [None] and makes no
    call.  With one, it answers what the walk finds when the walk meets no
    exception, and when it meets one it answers [None] and writes
    ["Failed to get current session: "] and the message to standard
    error. *)
Theorem bridge_get_current_session_outcome (w : World) :
  ITerm2Bridge.get_current_session ITerm2Bridge.init w = (Ok None, w)
  ∧
  (∀ c c' r,
     create_response (host w) = Ok c' → resolve (host w) = Ok r →
     ITerm2Bridge.get_current_session {| ITerm2Bridge.connection := Some c |} w
     = (Ok r, logged [CallGetApp] w))
  ∧
  (∀ c c' msg,
     create_response (host w) = Ok c' → resolve (host w) = Raise msg →
     ITerm2Bridge.get_current_session {| ITerm2Bridge.connection := Some c |} w
     = (Ok None,
        {| host := host w; calls := calls w ++ [CallGetApp]; stdout := stdout w;
           stderr := stderr w +:+ ("Failed to get current session: " +:+ msg)
                              +:+ newline |}))
  ∧
  (∀ self, ∃ r w',
     ITerm2Bridge.get_current_session self w = (Ok r, w') ∧
     host w' = host w ∧ stdout w' = stdout w).
Proof.
  split; [reflexivity|]. split; [|split].
  - intros c c' r Hc H. rewrite bridge_get_current_session_run.
    unfold resolve in H. rewrite Hc in H.
    destruct (app_response (host w)) as [app|]; [|discriminate].
    rewrite H. reflexivity.
  - intros c c' msg Hc H. rewrite bridge_get_current_session_run.
    unfold resolve in H. rewrite Hc in H.
    destruct (app_response (host w)) as [app|m0].
    + rewrite H. reflexivity.
    + injection H as ->. reflexivity.
  - intros [[c|]].
    + rewrite bridge_get_current_session_run.
      destruct (app_response (host w)) as [app|m0].
      * match goal with
        | |- context [match ?x with Ok _ => _ | Raise _ => _ end] => destruct x
        end; do 2 eexists; repeat split.
      * do 2 eexists; repeat split.
    + exists None, w. repeat split.
Qed.

Lemma bridge_get_current_session_outcome_witness :
  ITerm2Bridge.get_current_session {| ITerm2Bridge.connection := Some connection_handle |}
    (initial host_without_app)
  = (Ok None,
     {| host := host_without_app; calls := [CallGetApp]; stdout := "";
        stderr := "Failed to get current session: no application" +:+ newline |}).
Proof.
  destruct (bridge_get_current_session_outcome (initial host_without_app))
    as (_ & _ & Hraise & _).
  exact (Hraise connection_handle connection_handle "no application" eq_refl eq_refl).
Defined.

Lemma bridge_gcs_ok c w r :
  resolve (host w) = Ok r →
  ITerm2Bridge.get_current_session {| ITerm2Bridge.connection := Some c |} w
  = (Ok r, logged [CallGetApp] w).
Proof.
  intros H. rewrite bridge_get_current_session_run. unfold resolve in H.
  destruct (create_response (host w)); [|discriminate].
  destruct (app_response (host w)) as [app|]; [|discriminate].
  rewrite H. reflexivity.
Qed.

Lemma bridge_gcs_raise c c' w msg :
  create_response (host w) = Ok c' →
  resolve (host w) = Raise msg →
  ITerm2Bridge.get_current_session {| ITerm2Bridge.connection := Some c |} w
  = (Ok None,
     {| host := host w; calls := calls w ++ [CallGetApp]; stdout := stdout w;
        stderr := stderr w +:+ ("Failed to get current session: " +:+ msg)
                           +:+ newline |}).
Proof.
  intros Hc H. rewrite bridge_get_current_session_run.
  unfold resolve in H. rewrite Hc in H.
  destruct (app_response (host w)) as [app|m0].
  - rewrite H. reflexivity.
  - injection H as ->. reflexivity.
Qed.

(** X14. On an object that was never connected, [write_text],
    [send_control_character], [get_tty_path] and [is_processing] answer the
    failure ["No active session found"] and do nothing else: no call, no
    output. *)
Theorem bridge_unconnected_no_session (w : World) (text char : string) :
  ITerm2Bridge.write_text ITerm2Bridge.init text w
    = (Ok [("success", VBool false); ("error", VStr "No active session found")], w) ∧
  ITerm2Bridge.send_control_character ITerm2Bridge.init char w
    = (Ok [("success", VBool false); ("error", VStr "No active session found")], w) ∧
  ITerm2Bridge.get_tty_path ITerm2Bridge.init w
    = (Ok [("success", VBool false); ("error", VStr "No active session found")], w) ∧
  ITerm2Bridge.is_processing ITerm2Bridge.init w
    = (Ok [("success", VBool false); ("error", VStr "No active session found")], w).
Proof. repeat split; reflexivity. Qed.

(** X15. On a connected object, an exception met while looking for the
    session does not reach the answer of the four methods: they answer the
    failure ["No active session found"], and the message of the exception
    goes to standard error only. *)
Theorem bridge_resolution_fault_masked (c c' : Connection) (msg text char : string)
    (w : World) :
  create_response (host w) = Ok c' →
  resolve (host w) = Raise msg →
  let self := {| ITerm2Bridge.connection := Some c |} in
  let answer := [("success", VBool false); ("error", VStr "No active session found")] in
  let w' := {| host := host w; calls := calls w ++ [CallGetApp]; stdout := stdout w;
               stderr := stderr w +:+ ("Failed to get current session: " +:+ msg)
                                  +:+ newline |} in
  ITerm2Bridge.write_text self text w = (Ok answer, w') ∧
  ITerm2Bridge.send_control_character self char w = (Ok answer, w') ∧
  ITerm2Bridge.get_tty_path self w = (Ok answer, w') ∧
  ITerm2Bridge.is_processing self w = (Ok answer, w').
Proof.
  intros Hc H self answer w'. subst self answer w'.
  unfold ITerm2Bridge.write_text, ITerm2Bridge.send_control_character,
    ITerm2Bridge.get_tty_path, ITerm2Bridge.is_processing, try_except.
  rewrite !run_bind, (bridge_gcs_raise c c' w msg Hc H).
  repeat split; reflexivity.
Qed.

Lemma bridge_resolution_fault_masked_witness :
  ITerm2Bridge.is_processing {| ITerm2Bridge.connection := Some connection_handle |}
    (initial host_without_app)
  = (Ok [("success", VBool false); ("error", VStr "No active session found")],
     {| host := host_without_app; calls := [CallGetApp]; stdout := "";
        stderr := "Failed to get current session: no application" +:+ newline |}).
Proof.
  exact (proj2 (proj2 (proj2
    (bridge_resolution_fault_masked connection_handle connection_handle
       "no application" "" "" (initial host_without_app) eq_refl eq_refl)))).
Defined.

(** X16. [send_control_character] of the class, on a connected object and a
    resolved session, follows the same table as [send_control]: on a key it
    sends [chr(code)] and answers [{"success": True}], or the failure with
    the message when the host refuses the send; on anything else it sends
    nothing and answers the failure ["Unknown control character: "] with
    the argument as given. *)
Theorem bridge_send_control_character_by_table (c : Connection) (char : string)
    (w : World) (s : Session) :
  resolve (host w) = Ok (Some s) →
  let self := {| ITerm2Bridge.connection := Some c |} in
  (∀ code, (str_lower char, code) ∈ spec_control_table →
     (send_text_response s = Ok () →
      ITerm2Bridge.send_control_character self char w =
      (Ok [("success", VBool true)],
       {| host := set_current_session (deliver (chr code) s) (host w);
          calls := calls w ++ [CallGetApp; CallSendText (chr code)];
          stdout := stdout w; stderr := stderr w |})) ∧
     (∀ msg, send_text_response s = Raise msg →
      ITerm2Bridge.send_control_character self char w =
      (Ok [("success", VBool false); ("error", VStr msg)],
       logged [CallGetApp; CallSendText (chr code)] w)))
  ∧
  ((∀ code, (str_lower char, code) ∉ spec_control_table) →
     ITerm2Bridge.send_control_character self char w =
     (Ok [("success", VBool false);
          ("error", VStr ("Unknown control character: " +:+ char))],
      logged [CallGetApp] w)).
Proof.
  intros H self. subst self.
  unfold ITerm2Bridge.send_control_character, try_except.
  rewrite run_bind, (bridge_gcs_ok c w _ H), bridge_control_map. cbv zeta.
  split.
  - intros code Hin. apply control_map_table in Hin. rewrite Hin, run_bind.
    split.
    + intros E. rewrite (send_text_accepted _ _ _ E). cbn.
      rewrite <- app_assoc. reflexivity.
    + intros msg E. rewrite (send_text_refused _ _ msg _ E), logged_logged.
      reflexivity.
  - intros Hout.
    destruct (control_map !! str_lower char) as [code|] eqn:E; [|reflexivity].
    apply control_map_table in E. destruct (Hout code E).
Qed.

Lemma bridge_send_control_character_by_table_witness :
  ITerm2Bridge.send_control_character
    {| ITerm2Bridge.connection := Some connection_handle |} "L" (initial test_host)
  = (Ok [("success", VBool true)],
     {| host := set_current_session (deliver (chr 12) (plain_session ["foo"; "bar"]))
                  test_host;
        calls := [CallGetApp; CallSendText (chr 12)];
        stdout := ""; stderr := "" |}).
Proof.
  destruct (bridge_send_control_character_by_table connection_handle "L"
              (initial test_host) (plain_session ["foo"; "bar"]) eq_refl)
    as [Hknown _].
  destruct (Hknown 12) as [Hok _].
  - vm_compute. do 3 right. left.
  - exact (Hok eq_refl).
Defined.

(** X17. [write_text] of the class, on a connected object and a resolved
    session: the text is sent as given and the answer is
    [{"success": True}]; when the host answers the send with an exception
    the method does not raise, its answer is the failure with the message,
    and the send was tried once. *)
Theorem bridge_write_text_outcome (c : Connection) (text : string)
    (w : World) (s : Session) :
  resolve (host w) = Ok (Some s) →
  let self := {| ITerm2Bridge.connection := Some c |} in
  (send_text_response s = Ok () →
     ITerm2Bridge.write_text self text w =
     (Ok [("success", VBool true)],
      {| host := set_current_session (deliver text s) (host w);
         calls := calls w ++ [CallGetApp; CallSendText text];
         stdout := stdout w; stderr := stderr w |}))
  ∧
  (∀ msg, send_text_response s = Raise msg →
     (ITerm2Bridge.write_text self text w).1
       = Ok [("success", VBool false); ("error", VStr msg)] ∧
     calls (ITerm2Bridge.write_text self text w).2
       = (calls w ++ [CallGetApp; CallSendText text])%list ∧
     stdout (ITerm2Bridge.write_text self text w).2 = stdout w ∧
     stderr (ITerm2Bridge.write_text self text w).2 = stderr w).
Proof.
  intros H self. subst self.
  unfold ITerm2Bridge.write_text, try_except.
  rewrite run_bind, (bridge_gcs_ok c w _ H), run_bind.
  split.
  - intros E. rewrite (send_text_accepted _ _ _ E). cbn.
    rewrite <- app_assoc. reflexivity.
  - intros msg E. rewrite (send_text_refused _ _ msg _ E), logged_logged.
    repeat split; reflexivity.
Qed.

Lemma bridge_write_text_outcome_witness :
  (ITerm2Bridge.write_text {| ITerm2Bridge.connection := Some connection_handle |}
     "pwd" (initial (host_of (Some refusing_session)))).1
  = Ok [("success", VBool false); ("error", VStr "session closed")].
Proof.
  exact (proj1 (proj2 (bridge_write_text_outcome connection_handle "pwd"
                         (initial (host_of (Some refusing_session)))
                         refusing_session eq_refl)
                  "session closed" eq_refl)).
Defined.

(** X18. [get_tty_path] of the class, on a connected object and a resolved
    session, asks the session for its data: it answers the [tty] of that
    data when there is one, the failure ["Could not get TTY path"] when the
    data is [None] or has no [tty], and the failure with the message when
    the query raises. *)
Theorem bridge_get_tty_path_outcome (c : Connection) (w : World) (s : Session) :
  resolve (host w) = Ok (Some s) →
  let self := {| ITerm2Bridge.connection := Some c |} in
  let w' := logged [CallGetApp; CallGetSessionInfo] w in
  (∀ tty, session_info_response s = Ok (Some {| info_tty := Some tty |}) →
     ITerm2Bridge.get_tty_path self w
     = (Ok [("success", VBool true); ("tty", VStr tty)], w'))
  ∧
  (session_info_response s = Ok None ∨
   session_info_response s = Ok (Some {| info_tty := None |}) →
     ITerm2Bridge.get_tty_path self w
     = (Ok [("success", VBool false); ("error", VStr "Could not get TTY path")], w'))
  ∧
  (∀ msg, session_info_response s = Raise msg →
     ITerm2Bridge.get_tty_path self w
     = (Ok [("success", VBool false); ("error", VStr msg)], w')).
Proof.
  intros H self w'. subst self w'.
  unfold ITerm2Bridge.get_tty_path, try_except.
  rewrite run_bind, (bridge_gcs_ok c w _ H), run_bind.
  change (async_get_session_info s (logged [CallGetApp] w))
    with (session_info_response s, logged [CallGetSessionInfo] (logged [CallGetApp] w)).
  rewrite logged_logged.
  split; [|split].
  - intros tty ->. reflexivity.
  - intros [-> | ->]; reflexivity.
  - intros msg ->. reflexivity.
Qed.

Lemma bridge_get_tty_path_outcome_witness :
  ITerm2Bridge.get_tty_path {| ITerm2Bridge.connection := Some connection_handle |}
    (initial test_host)
  = (Ok [("success", VBool true); ("tty", VStr "/dev/ttys004")],
     logged [CallGetApp; CallGetSessionInfo] (initial test_host)).
Proof.
  exact (proj1 (bridge_get_tty_path_outcome connection_handle (initial test_host)
                  (plain_session ["foo"; "bar"]) eq_refl)
           "/dev/ttys004" eq_refl).
Defined.

(** *** The methods catch everything *)

Lemma print_stderr_keeps_stdout s : keeps stdout (print_stderr s).
Proof. intros w. reflexivity. Qed.

Lemma async_get_session_info_keeps_stdout s : keeps stdout (async_get_session_info s).
Proof. unfold async_get_session_info. keeps_steps. Qed.

Lemma bridge_get_current_session_silent self :
  keeps stdout (ITerm2Bridge.get_current_session self).
Proof.
  unfold ITerm2Bridge.get_current_session.
  destruct (ITerm2Bridge.connection self); [|apply keeps_ret].
  apply keeps_try_except.
  - keeps_api.
  - intros e. apply keeps_bind; [apply print_stderr_keeps_stdout|intros; apply keeps_ret].
Qed.

(** A [try] whose handler returns the failure dictionary never raises, and
    is as silent as its body. *)
Lemma caught_answer (body : M dict) w :
  keeps stdout body →
  ∃ d w',
    try_except body (λ e, mret [("success", VBool false); ("error", VStr e)]) w
      = (Ok d, w') ∧
    stdout w' = stdout w.
Proof.
  intros Hb. unfold try_except. specialize (Hb w).
  destruct (body w) as [[d|msg] w']; simpl in Hb; do 2 eexists; split;
    try reflexivity; exact Hb.
Qed.

(** X19. [write_text], [send_control_character], [get_tty_path] and
    [is_processing] of the class never raise and never write to standard
    output: on every object and every host they return a dictionary. *)
Theorem bridge_methods_never_raise (self : ITerm2Bridge.t) (w : World)
    (text char : string) :
  (∃ d w', ITerm2Bridge.write_text self text w = (Ok d, w') ∧ stdout w' = stdout w) ∧
  (∃ d w', ITerm2Bridge.send_control_character self char w = (Ok d, w') ∧
           stdout w' = stdout w) ∧
  (∃ d w', ITerm2Bridge.get_tty_path self w = (Ok d, w') ∧ stdout w' = stdout w) ∧
  (∃ d w', ITerm2Bridge.is_processing self w = (Ok d, w') ∧ stdout w' = stdout w).
Proof.
  repeat split; apply caught_answer;
    (apply keeps_bind; [apply bridge_get_current_session_silent|intros session]);
    destruct session as [session|]; try apply keeps_ret.
  - keeps_api.
  - cbv zeta. destruct (ITerm2Bridge.control_map !! str_lower char); keeps_api.
  - apply keeps_bind; [apply async_get_session_info_keeps_stdout|].
    intros [[[tty|]]|]; apply keeps_ret.
Qed.
